(** * AIBetterTTrade: signal fusion, sizing, indicators and the decision engine

    A shallow embedding of [lib/custom_helpers.py], [lib/market_data.py] and
    the trading block of [runner.py].

    Modelling conventions.
    - Python [float]s are idealised as rationals ([Q]); comparisons use
      [Qle_bool] and friends, arithmetic is exact.  A pandas [NaN] is [None]
      in a series of [option Q].  Where overflow matters the function is
      given a second time over binary64 floats (module [PyFloat]).
    - Python [str] is [string] over ASCII; [strip], [upper] and
      [capitalize] act on the ASCII range and leave other bytes unchanged.
    - A raised exception is the [Raise] constructor of [result].
    - The exchange client is an interface ([Exchange]) over an abstract
      state; every call is recorded in a trace. *)

From Stdlib Require Import String Ascii List Bool ZArith QArith Qabs Qminmax Lia Lqa DecimalString.
From Stdlib Require PrimFloat.
Import ListNotations.

Open Scope string_scope.

(** ** Exceptions and results *)

Inductive exn : Type :=
| ValueError
| TypeError
| ZeroDivisionError
| IndexError
| AttributeError
| ExchangeFailure.

Inductive result (A : Type) : Type :=
| Ok (a : A)
| Raise (e : exn).

Arguments Ok {A} a.
Arguments Raise {A} e.

Definition rbind {A B : Type} (r : result A) (k : A -> result B) : result B :=
  match r with
  | Ok a => k a
  | Raise e => Raise e
  end.

Module PyStr.

(** [str.isspace] on the ASCII range: TAB..CR, FS..US and the space. *)
Definition is_space (c : ascii) : bool :=
  let n := nat_of_ascii c in
  ((9 <=? n) && (n <=? 13) || (28 <=? n) && (n <=? 32))%nat.

Definition upper_char (c : ascii) : ascii :=
  let n := nat_of_ascii c in
  if ((97 <=? n) && (n <=? 122))%nat then ascii_of_nat (n - 32) else c.

Definition lower_char (c : ascii) : ascii :=
  let n := nat_of_ascii c in
  if ((65 <=? n) && (n <=? 90))%nat then ascii_of_nat (n + 32) else c.

Fixpoint smap (f : ascii -> ascii) (s : string) : string :=
  match s with
  | EmptyString => EmptyString
  | String c r => String (f c) (smap f r)
  end.

Definition upper : string -> string := smap upper_char.
Definition lower : string -> string := smap lower_char.

(** [str.capitalize]: first character upper-cased, the rest lower-cased. *)
Definition capitalize (s : string) : string :=
  match s with
  | EmptyString => EmptyString
  | String c r => String (upper_char c) (lower r)
  end.

Fixpoint lstrip_by (p : ascii -> bool) (s : string) : string :=
  match s with
  | EmptyString => EmptyString
  | String c r => if p c then lstrip_by p r else s
  end.

Fixpoint rstrip_by (p : ascii -> bool) (s : string) : string :=
  match s with
  | EmptyString => EmptyString
  | String c r =>
      match rstrip_by p r with
      | EmptyString => if p c then EmptyString else String c EmptyString
      | r' => String c r'
      end
  end.

Definition strip (s : string) : string := rstrip_by is_space (lstrip_by is_space s).

Definition startswith (s key : string) : bool := String.prefix key s.

Fixpoint last_char (s : string) : option ascii :=
  match s with
  | EmptyString => None
  | String c EmptyString => Some c
  | String _ r => last_char r
  end.

(** [s.endswith(c)] for a one-character suffix. *)
Definition endswith_char (s : string) (c : ascii) : bool :=
  match last_char s with
  | Some d => Ascii.eqb c d
  | None => false
  end.

(** [s[:-1]] *)
Fixpoint drop_last (s : string) : string :=
  match s with
  | EmptyString => EmptyString
  | String _ EmptyString => EmptyString
  | String c r => String c (drop_last r)
  end.

(** [sep.join(parts)] *)
Fixpoint join (sep : string) (parts : list string) : string :=
  match parts with
  | [] => EmptyString
  | [p] => p
  | p :: ps => p ++ sep ++ join sep ps
  end.

(** Truthiness of an [Optional[str]]: [None] and the empty string are falsy. *)
Definition truthy (s : option string) : bool :=
  match s with
  | None => false
  | Some EmptyString => false
  | Some _ => true
  end.

End PyStr.

(** ** custom_helpers.py: signal normalisation and fusion *)

Definition signal_names : list string := ["Bullish"; "Bearish"; "Neutral"].

Definition str_in (s : string) (l : list string) : bool :=
  existsb (String.eqb s) l.

Definition _normalize_signal (signal : option string) : string :=
  match signal with
  | None => "Neutral"
  | Some s =>
      if negb (PyStr.truthy (Some s)) then "Neutral"
      else
        let cleaned := PyStr.capitalize (PyStr.strip s) in
        if negb (str_in cleaned signal_names) then "Neutral" else cleaned
  end.

Definition combine_signals (ai_signal : option string)
    (technical_signal : option string) (technical_confidence : option Q) : string :=
  let normalized_ai := _normalize_signal ai_signal in
  let normalized_tech :=
    if PyStr.truthy technical_signal
    then Some (_normalize_signal technical_signal) else None in
  match normalized_tech, technical_confidence with
  | None, _ => normalized_ai
  | Some EmptyString, _ => normalized_ai
  | Some _, None => normalized_ai
  | Some tech, Some conf =>
      if String.eqb normalized_ai tech then normalized_ai
      else if String.eqb normalized_ai "Neutral" && Qle_bool (55 # 100) conf then tech
      else if String.eqb tech "Neutral" then normalized_ai
      else if Qle_bool (75 # 100) conf then "Neutral"
      else normalized_ai
  end.

(** ** custom_helpers.py: position side labels *)

Definition side_mapping : list (string * string) :=
  [("BUY", "buy"); ("BID", "buy"); ("LONG", "buy");
   ("SELL", "sell"); ("ASK", "sell"); ("SHORT", "sell")].

(** The [for key, value in mapping.items()] loop, in insertion order. *)
Fixpoint first_prefix (side : string) (mapping : list (string * string)) : option string :=
  match mapping with
  | [] => None
  | (key, value) :: rest =>
      if PyStr.startswith side key then Some value else first_prefix side rest
  end.

Definition normalize_position_side (raw_side : option string) : option string :=
  match raw_side with
  | None => None
  | Some s =>
      if negb (PyStr.truthy (Some s)) then None
      else first_prefix (PyStr.upper (PyStr.strip s)) side_mapping
  end.

(** ** Numeric literals: the builtins [int(str)] and [float(str)] *)

Module PyNum.

Definition digit_of (c : ascii) : option Z :=
  let n := nat_of_ascii c in
  if ((48 <=? n) && (n <=? 57))%nat then Some (Z.of_nat (n - 48)) else None.

(** Reads a maximal run of decimal digits: value, number of digits, rest. *)
Fixpoint read_digits (s : string) (acc : Z) (count : nat) : Z * nat * string :=
  match s with
  | EmptyString => (acc, count, EmptyString)
  | String c r =>
      match digit_of c with
      | Some d => read_digits r (10 * acc + d)%Z (S count)
      | None => (acc, count, s)
      end
  end.

(** Optional sign: [true] for a leading minus. *)
Definition read_sign (s : string) : bool * string :=
  match s with
  | String "-" r => (true, r)
  | String "+" r => (false, r)
  | _ => (false, s)
  end.

Definition apply_sign (neg : bool) (z : Z) : Z := if neg then (- z)%Z else z.

(** [int(s)]: surrounding whitespace, an optional sign, at least one digit.
    [None] stands for the [ValueError] of a malformed literal. *)
Definition py_int (s : string) : option Z :=
  let '(neg, r) := read_sign (PyStr.strip s) in
  match read_digits r 0 0 with
  | (v, S _, EmptyString) => Some (apply_sign neg v)
  | _ => None
  end.

Definition read_exponent (s : string) : option (Z * string) :=
  match s with
  | String c r =>
      if (Ascii.eqb c "e" || Ascii.eqb c "E")%bool then
        let '(neg, r') := read_sign r in
        match read_digits r' 0 0 with
        | (v, S _, rest) => Some (apply_sign neg v, rest)
        | _ => None
        end
      else Some (0%Z, s)
  | EmptyString => Some (0%Z, s)
  end.

Definition pow10 (e : Z) : Q :=
  if (0 <=? e)%Z then inject_Z (10 ^ e) else / inject_Z (10 ^ (- e)).

(** [float(s)] for finite decimal literals: whitespace, sign, digits with an
    optional fraction, optional exponent.  [None] is the [ValueError]; the
    non-finite literals (inf, nan) are not represented and also give [None]:
    in [calculate_position_size] the code rejects them with the same
    [ValueError]. *)
Definition py_float (s : string) : option Q :=
  let '(neg, r) := read_sign (PyStr.strip s) in
  let '(ip, ci, r1) := read_digits r 0 0 in
  let '(fp, cf, r2) :=
    match r1 with
    | String "." r1' => read_digits r1' 0 0
    | _ => (0%Z, 0%nat, r1)
    end in
  match (ci + cf)%nat with
  | O => None
  | S _ =>
      match read_exponent r2 with
      | Some (e, EmptyString) =>
          let mant := (ip * 10 ^ Z.of_nat cf + fp)%Z in
          Some (Qred (inject_Z (apply_sign neg mant) * pow10 (e - Z.of_nat cf)))
      | _ => None
      end
  end.

End PyNum.

Definition Qlt_bool (a b : Q) : bool := negb (Qle_bool b a).

(** ** custom_helpers.py: stop-loss and position sizing *)

Definition calculate_stop_loss_price (entry_price : Q) (side : string) (sl_percent : Q) : Q :=
  if String.eqb side "BUY"
  then entry_price * (1 - sl_percent / 100)
  else entry_price * (1 + sl_percent / 100).

(** A sizing specification as Python sees it: a [str], an [int]/[float], or
    a value of any other type. *)
Inductive size_spec : Type :=
| SpecStr (s : string)
| SpecNum (q : Q)
| SpecOther.

Definition is_percent (c : ascii) : bool := Ascii.eqb c "%".

(** [calculate_position_size] after its two exchange reads: [capital] is the
    value of [exchange.get_account_balance("USDT")] and [current_price] that
    of [exchange.get_current_price(symbol)]. *)
Definition calculate_position_size (capital current_price : Q)
    (position_size : size_spec) : result Q :=
  rbind
    (match position_size with
     | SpecStr s =>
         if PyStr.endswith_char s "%" then
           match PyNum.py_float (PyStr.rstrip_by is_percent s) with
           | None => Raise ValueError
           | Some percentage =>
               if negb (Qlt_bool 0 percentage && Qle_bool percentage 100)
               then Raise ValueError
               else
                 let fraction := percentage / 100 in
                 Ok (capital * fraction)
           end
         else Raise ValueError
     | SpecNum amount =>
         if Qle_bool amount 0 then Raise ValueError
         else if Qlt_bool capital amount then Raise ValueError
         else Ok amount
     | SpecOther => Raise TypeError
     end)
    (fun capital_to_use =>
       if Qeq_bool current_price 0 then Raise ZeroDivisionError
       else Ok (capital_to_use / current_price)).

(** ** market_data.py: pandas series *)

Module Pandas.

(** A float series; [None] is [NaN]. *)
Definition series : Type := list (option Q).

Definition of_floats (l : list Q) : series := map Some l.

Definition lift2 (f : Q -> Q -> Q) (a b : option Q) : option Q :=
  match a, b with
  | Some x, Some y => Some (f x y)
  | _, _ => None
  end.

(** Element-wise operation on two series over the same index. *)
Fixpoint zip_with (f : option Q -> option Q -> option Q) (a b : series) : series :=
  match a, b with
  | x :: a', y :: b' => f x y :: zip_with f a' b'
  | _, _ => []
  end.

(** [s.shift(1)] *)
Definition shift1 (s : series) : series :=
  match s with
  | [] => []
  | _ => None :: removelast s
  end.

(** [s.diff()] *)
Definition diff (s : series) : series := zip_with (lift2 Qminus) s (shift1 s).

(** Float division; a zero denominator yields a non-finite value, which is
    kept as undefined. *)
Definition fdiv (a b : option Q) : option Q :=
  match a, b with
  | Some x, Some y => if Qeq_bool y 0 then None else Some (x / y)
  | _, _ => None
  end.

(** [s.pct_change()] *)
Definition pct_change (s : series) : series :=
  zip_with fdiv (zip_with (lift2 Qminus) s (shift1 s)) (shift1 s).

Definition clip_lower (lo : Q) (s : series) : series := map (option_map (Qmax lo)) s.
Definition clip_upper (hi : Q) (s : series) : series := map (option_map (Qmin hi)) s.
Definition neg (s : series) : series := map (option_map Qopp) s.
Definition sabs (s : series) : series := map (option_map Qabs) s.

(** [s.replace(0, pd.NA)] *)
Definition replace_zero_na (s : series) : series :=
  map (fun o => match o with
                | Some x => if Qeq_bool x 0 then None else Some x
                | None => None
                end) s.

Definition valid (l : series) : list Q :=
  flat_map (fun o => match o with Some x => [x] | None => [] end) l.

Definition window_at (w : nat) (s : series) (i : nat) : series :=
  skipn (S i - w) (firstn (S i) s).

(** [s.rolling(window=w).agg()]: [min_periods] defaults to the window size,
    so a window with fewer than [w] valid observations gives [NaN]. *)
Definition rolling (w : nat) (agg : list Q -> option Q) (s : series) : series :=
  map (fun i =>
         let v := valid (window_at w s i) in
         if (length v <? w)%nat then None else agg v)
      (seq 0 (length s)).

Definition qsum (l : list Q) : Q := fold_right Qplus 0 l.

Definition mean (l : list Q) : option Q :=
  match l with
  | [] => None
  | _ => Some (qsum l / inject_Z (Z.of_nat (length l)))
  end.

(** Row-wise [max(axis=1)] of three columns, skipping [NaN]. *)
Definition row_max3 (a b c : option Q) : option Q :=
  match valid [a; b; c] with
  | [] => None
  | x :: r => Some (fold_left Qmax r x)
  end.

Fixpoint zip_with3 (f : option Q -> option Q -> option Q -> option Q)
    (a b c : series) : series :=
  match a, b, c with
  | x :: a', y :: b', z :: c' => f x y z :: zip_with3 f a' b' c'
  | _, _, _ => []
  end.

(** [s.iloc[-1]] *)
Definition iloc_last {A : Type} (s : list A) : result A :=
  match s with
  | [] => Raise IndexError
  | x :: r => Ok (last r x)
  end.

(** [s.iloc[i]] with Python's negative indices. *)
Definition iloc {A : Type} (s : list A) (i : Z) : result A :=
  let n := Z.of_nat (length s) in
  let j := if (i <? 0)%Z then (n + i)%Z else i in
  if ((j <? 0) || (n <=? j))%Z then Raise IndexError
  else match nth_error s (Z.to_nat j) with
       | Some x => Ok x
       | None => Raise IndexError
       end.

(** [s.iloc[start:]] *)
Definition iloc_from {A : Type} (s : list A) (start : Z) : list A :=
  let n := Z.of_nat (length s) in
  let j := if (start <? 0)%Z then Z.max 0 (n + start) else Z.min start n in
  skipn (Z.to_nat j) s.

End Pandas.

(** ** market_data.py: snapshot and indicators *)

Record Candle : Type := {
  c_open : Q;
  c_high : Q;
  c_low : Q;
  c_close : Q;
  c_volume : Q
}.

Record MarketSnapshot : Type := {
  symbol : string;
  interval : string;
  latest_close : Q;
  change_24h : Q;
  change_4h : Q;
  momentum_1h : Q;
  rsi : Q;
  sma_fast : Q;
  sma_slow : Q;
  atr_pct : Q;
  volume_24h : Q;
  volatility_24h : Q
}.

Record TechnicalSignal : Type := {
  signal : string;
  confidence : Q;
  rationale : string
}.

Definition _safe_value (value : option Q) (fallback : Q) : Q :=
  match value with
  | None => fallback
  | Some v => v
  end.

Definition _period_pct_change (series : list Q) (bars : Z) : result Q :=
  if ((Z.of_nat (length series) <=? bars) || (bars <=? 0))%Z then Ok 0
  else
    rbind (Pandas.iloc series (-1)) (fun latest =>
    rbind (Pandas.iloc series (- bars - 1)) (fun base =>
    if Qeq_bool base 0 then Ok 0
    else Ok ((latest - base) / base))).

Definition multipliers : list (ascii * Z) :=
  [("m"%char, 1%Z); ("h"%char, 60%Z); ("d"%char, (60 * 24)%Z)].

Fixpoint lookup_unit (u : ascii) (table : list (ascii * Z)) : option Z :=
  match table with
  | [] => None
  | (k, v) :: rest => if Ascii.eqb u k then Some v else lookup_unit u rest
  end.

Definition _interval_to_minutes (interval : string) : result Z :=
  match PyStr.last_char interval with
  | None => Raise IndexError
  | Some unit =>
      match PyNum.py_int (PyStr.drop_last interval) with
      | None => Raise ValueError
      | Some value =>
          match lookup_unit unit multipliers with
          | None => Raise ValueError
          | Some mult => Ok (value * mult)%Z
          end
      end
  end.

(** [int(period_minutes / _interval_to_minutes(interval))]: true division
    followed by truncation toward zero. *)
Definition period_bars (period_minutes : Z) (interval : string) : result Z :=
  rbind (_interval_to_minutes interval) (fun minutes =>
  if (minutes =? 0)%Z then Raise ZeroDivisionError
  else Ok (Z.quot period_minutes minutes)).

Definition _calculate_rsi (series : list Q) (period : nat) : result Q :=
  let delta := Pandas.diff (Pandas.of_floats series) in
  let gain := Pandas.clip_lower 0 delta in
  let loss := Pandas.neg (Pandas.clip_upper 0 delta) in
  let avg_gain := Pandas.rolling period Pandas.mean gain in
  let avg_loss := Pandas.rolling period Pandas.mean loss in
  let rs := Pandas.zip_with Pandas.fdiv avg_gain (Pandas.replace_zero_na avg_loss) in
  let rsi := map (fun r => Pandas.lift2 Qminus (Some 100)
                             (Pandas.fdiv (Some 100) (Pandas.lift2 Qplus (Some 1) r))) rs in
  rbind (Pandas.iloc_last rsi) (fun value => Ok (_safe_value value 50)).

Definition _calculate_atr (high low close : list Q) (period : nat) : result Q :=
  let h := Pandas.of_floats high in
  let l := Pandas.of_floats low in
  let prev_close := Pandas.shift1 (Pandas.of_floats close) in
  let tr := Pandas.zip_with3 Pandas.row_max3
              (Pandas.zip_with (Pandas.lift2 Qminus) h l)
              (Pandas.sabs (Pandas.zip_with (Pandas.lift2 Qminus) h prev_close))
              (Pandas.sabs (Pandas.zip_with (Pandas.lift2 Qminus) l prev_close)) in
  let atr := Pandas.rolling period Pandas.mean tr in
  rbind (Pandas.iloc_last atr) (fun value => Ok (_safe_value value 0)).

Section Snapshot.

(** The floating-point square root behind [rolling(...).std()]. *)
Variable fsqrt : Q -> Q.

(** Sample standard deviation ([ddof=1]). *)
Definition std (l : list Q) : option Q :=
  match l with
  | [] | [_] => None
  | _ =>
      let n := inject_Z (Z.of_nat (length l)) in
      let m := Pandas.qsum l / n in
      Some (fsqrt (Pandas.qsum (map (fun x => (x - m) * (x - m)) l) / (n - 1)))
  end.

(** [closes.pct_change().rolling(window=bars).std().iloc[-1]]; pandas rejects
    a negative window with a [ValueError]. *)
Definition rolling_std_last (closes : list Q) (bars : Z) : result (option Q) :=
  if (bars <? 0)%Z then Raise ValueError
  else Pandas.iloc_last
         (Pandas.rolling (Z.to_nat bars) std (Pandas.pct_change (Pandas.of_floats closes))).

Definition build_snapshot (symbol interval : string) (klines : list Candle)
    : result MarketSnapshot :=
  let closes := map c_close klines in
  let highs := map c_high klines in
  let lows := map c_low klines in
  let volumes := map c_volume klines in
  rbind (period_bars (24 * 60) interval) (fun bars_24h =>
  rbind (_period_pct_change closes bars_24h) (fun change_24h =>
  rbind (period_bars (4 * 60) interval) (fun bars_4h =>
  rbind (_period_pct_change closes bars_4h) (fun change_4h =>
  rbind (period_bars 60 interval) (fun bars_1h =>
  rbind (_period_pct_change closes (Z.max 1 bars_1h)) (fun momentum_1h =>
  rbind (_calculate_rsi closes 14) (fun rsi =>
  rbind (Pandas.iloc_last (Pandas.rolling 20 Pandas.mean (Pandas.of_floats closes))) (fun m20 =>
  rbind (Pandas.iloc_last closes) (fun last_close =>
  let sma_fast := _safe_value m20 last_close in
  rbind (Pandas.iloc_last (Pandas.rolling 60 Pandas.mean (Pandas.of_floats closes))) (fun m60 =>
  let sma_slow := _safe_value m60 last_close in
  rbind (_calculate_atr highs lows closes 14) (fun atr_value =>
  let atr_pct := if Qeq_bool last_close 0 then 0 else atr_value / last_close * 100 in
  rbind (rolling_std_last closes bars_24h) (fun vol =>
  let volatility_24h := _safe_value vol 0 in
  let volume_24h := Pandas.qsum (Pandas.iloc_from volumes (- bars_24h)) in
  Ok {| symbol := symbol;
        interval := interval;
        latest_close := last_close;
        change_24h := change_24h;
        change_4h := change_4h;
        momentum_1h := momentum_1h;
        rsi := rsi;
        sma_fast := sma_fast;
        sma_slow := sma_slow;
        atr_pct := atr_pct;
        volume_24h := volume_24h;
        volatility_24h := volatility_24h |})))))))))))).

End Snapshot.

(** ** Fixed-point formatting: [f"{x:.Nf}"] *)

Module PyFmt.

Definition z_to_string (z : Z) : string := NilZero.string_of_int (Z.to_int z).

(** Nearest integer of a non-negative rational, ties to even. *)
Definition round_half_even (q : Q) : Z :=
  let n := Qnum q in
  let d := Zpos (Qden q) in
  let fl := (n / d)%Z in
  let r := (n mod d)%Z in
  match (2 * r ?= d)%Z with
  | Lt => fl
  | Gt => (fl + 1)%Z
  | Eq => if Z.even fl then fl else (fl + 1)%Z
  end.

Fixpoint zeros (n : nat) : string :=
  match n with
  | O => EmptyString
  | S k => String "0" (zeros k)
  end.

Definition pad_left (width : nat) (s : string) : string :=
  zeros (width - String.length s) ++ s.

(** [format(q, ".<digits>f")] *)
Definition format_f (digits : nat) (q : Q) : string :=
  let scale := (10 ^ Z.of_nat digits)%Z in
  let scaled := round_half_even (Qabs q * inject_Z scale) in
  let body :=
    z_to_string (scaled / scale) ++
    match digits with
    | O => EmptyString
    | _ => "." ++ pad_left digits (z_to_string (scaled mod scale))
    end in
  if Qlt_bool q 0 then "-" ++ body else body.

End PyFmt.

(** ** market_data.py: the deterministic scorer *)

(** [parts.append(p)] *)
Definition append_part (parts : list string) (p : string) : list string :=
  (parts ++ [p])%list.

(** The running [(score, rationale_parts)] of [derive_signal] just before the
    thresholding. *)
Definition score_and_parts (snapshot : MarketSnapshot) : Q * list string :=
  let score := 0 in
  let rationale_parts : list string := [] in
  let trend_bias :=
    if Qlt_bool (sma_slow snapshot) (latest_close snapshot) then 25 # 100 else - (25 # 100) in
  let score := score + trend_bias in
  let rationale_parts :=
    append_part rationale_parts
      ("Price " ++ (if Qlt_bool 0 trend_bias then "above" else "below") ++ " long SMA (" ++
       PyFmt.format_f 0 (latest_close snapshot) ++ " vs " ++
       PyFmt.format_f 0 (sma_slow snapshot) ++ ")") in
  let ma_cross_bias :=
    if Qlt_bool (sma_slow snapshot) (sma_fast snapshot) then 2 # 10 else - (2 # 10) in
  let score := score + ma_cross_bias in
  let rationale_parts :=
    append_part rationale_parts
      ("SMA20" ++ (if Qlt_bool 0 ma_cross_bias then ">" else "<") ++ "SMA60") in
  let '(score, rationale_parts) :=
    if Qle_bool 55 (rsi snapshot) then
      let rsi_bias := Qmin (2 # 10) ((rsi snapshot - 55) / 100) in
      (score + rsi_bias,
       append_part rationale_parts ("RSI strong (" ++ PyFmt.format_f 1 (rsi snapshot) ++ ")"))
    else if Qle_bool (rsi snapshot) 45 then
      let rsi_bias := - Qmin (2 # 10) ((45 - rsi snapshot) / 100) in
      (score + rsi_bias,
       append_part rationale_parts ("RSI weak (" ++ PyFmt.format_f 1 (rsi snapshot) ++ ")"))
    else (score, rationale_parts) in
  let '(score, rationale_parts) :=
    if Qle_bool (2 # 1000) (momentum_1h snapshot) then
      (score + (15 # 100),
       append_part rationale_parts
         ("1h momentum +" ++ PyFmt.format_f 2 (momentum_1h snapshot * 100) ++ "%"))
    else if Qle_bool (momentum_1h snapshot) (- (2 # 1000)) then
      (score - (15 # 100),
       append_part rationale_parts
         ("1h momentum " ++ PyFmt.format_f 2 (momentum_1h snapshot * 100) ++ "%"))
    else (score, rationale_parts) in
  let score :=
    if Qle_bool (5 # 1000) (change_24h snapshot) then score + (1 # 10)
    else if Qle_bool (change_24h snapshot) (- (5 # 1000)) then score - (1 # 10)
    else score in
  (score, rationale_parts).

Definition derive_signal (snapshot : MarketSnapshot) : TechnicalSignal :=
  let '(score, rationale_parts) := score_and_parts snapshot in
  let signal :=
    if Qlt_bool (15 # 100) score then "Bullish"
    else if Qlt_bool score (- (15 # 100)) then "Bearish"
    else "Neutral" in
  let confidence := Qmax (45 # 100) (Qmin (95 # 100) ((55 # 100) + Qabs score)) in
  let rationale := PyStr.join "; " rationale_parts in
  {| signal := signal; confidence := confidence; rationale := rationale |}.

(** ** The exchange collaborator *)

Record Position : Type := {
  side : option string;
  positionId : string;
  avgOpenPrice : Q
}.

Record Order : Type := {
  o_symbol : string;
  o_qty : Q;
  o_side : string;
  o_trade_side : string;
  o_order_type : string
}.

(** The calls the engine issues on the exchange client. *)
Inductive call : Type :=
| GetPendingPositions (symbol : string)
| GetAccountBalance (asset : string)
| GetCurrentPrice (symbol : string)
| SetMarginMode (symbol mode : string)
| SetLeverage (symbol : string) (leverage : Z)
| FlashClosePosition (position_id : string)
| PlaceOrder (order : Order)
| PlacePositionTpsl (symbol position_id : string) (sl_price : Q).

Definition is_flash_close (c : call) : bool :=
  match c with
  | FlashClosePosition _ => true
  | _ => false
  end.

(** Number of flash-close calls in a trace. *)
Definition flash_closes (trace : list call) : nat :=
  length (filter is_flash_close trace).

(** runner.py configuration *)
Definition SYMBOL : string := "BTCUSDT".
Definition LEVERAGE : Z := 1.
Definition MARGIN_MODE : string := "ISOLATION".
Definition STOP_LOSS_PERCENT : option Q := Some 10.

Inductive cycle_outcome : Type := RunCompleted | RunFailed.

(** The decision domain of the specification (section 4.6). *)
Inductive Signal : Type := Bullish | Bearish | Neutral.
Inductive PositionSide : Type := NoPosition | Long | Short.
Inductive TradeAction : Type :=
| OpenLong | OpenShort | FlipToLong | FlipToShort | Hold | Close | NoOp | EmergencyClose.

Definition signal_name (s : Signal) : string :=
  match s with
  | Bullish => "Bullish"
  | Bearish => "Bearish"
  | Neutral => "Neutral"
  end.

(** The normalised side label of [normalize_position_side]. *)
Definition side_label (p : PositionSide) : option string :=
  match p with
  | NoPosition => None
  | Long => Some "buy"
  | Short => Some "sell"
  end.


Definition opt_string_eqb (a b : option string) : bool :=
  match a, b with
  | None, None => true
  | Some x, Some y => String.eqb x y
  | _, _ => false
  end.

Section Engine.

(** State of the exchange (live or simulated). *)
Variable X : Type.

(** The client interface; [place_position_tpsl] is an optional capability
    (probed with [hasattr] by the code). *)
Record Exchange : Type := {
  get_pending_positions : string -> X -> result (option Position) * X;
  get_account_balance : string -> X -> result Q * X;
  get_current_price : string -> X -> result Q * X;
  set_margin_mode : string -> string -> X -> result unit * X;
  set_leverage : string -> Z -> X -> result unit * X;
  flash_close_position : string -> X -> result unit * X;
  place_order : Order -> X -> result unit * X;
  place_position_tpsl : option (string -> string -> Q -> X -> result unit * X)
}.

Variable exchange : Exchange.

(** Exchange state together with the trace of calls issued so far. *)
Definition world : Type := (X * list call)%type.

(** Computations that use the exchange and may raise. *)
Definition M (A : Type) : Type := world -> result A * world.

Definition ret {A : Type} (a : A) : M A := fun w => (Ok a, w).

Definition raise {A : Type} (e : exn) : M A := fun w => (Raise e, w).

Definition bind {A B : Type} (m : M A) (k : A -> M B) : M B :=
  fun w =>
    match m w with
    | (Ok a, w') => k a w'
    | (Raise e, w') => (Raise e, w')
    end.

(** [try: m except Exception: h] *)
Definition try_except {A : Type} (m : M A) (h : exn -> M A) : M A :=
  fun w =>
    match m w with
    | (Ok a, w') => (Ok a, w')
    | (Raise e, w') => h e w'
    end.

Definition lift {A : Type} (r : result A) : M A := fun w => (r, w).

(** Issue one call: run it on the exchange state and record it. *)
Definition perform {A : Type} (c : call) (op : X -> result A * X) : M A :=
  fun w =>
    let '(r, x') := op (fst w) in
    (r, (x', (snd w ++ [c])%list)).

Notation "x <- m ;; k" := (bind m (fun x => k))
  (at level 61, m at next level, right associativity).
Notation "m ;;; k" := (bind m (fun _ => k))
  (at level 61, right associativity).

Definition do_get_pending_positions (symbol : string) : M (option Position) :=
  perform (GetPendingPositions symbol) (get_pending_positions exchange symbol).

Definition do_get_account_balance (asset : string) : M Q :=
  perform (GetAccountBalance asset) (get_account_balance exchange asset).

Definition do_get_current_price (symbol : string) : M Q :=
  perform (GetCurrentPrice symbol) (get_current_price exchange symbol).

Definition do_set_margin_mode (symbol mode : string) : M unit :=
  perform (SetMarginMode symbol mode) (set_margin_mode exchange symbol mode).

Definition do_set_leverage (symbol : string) (leverage : Z) : M unit :=
  perform (SetLeverage symbol leverage) (set_leverage exchange symbol leverage).

Definition do_flash_close_position (position_id : string) : M unit :=
  perform (FlashClosePosition position_id) (flash_close_position exchange position_id).

Definition do_place_order (order : Order) : M unit :=
  perform (PlaceOrder order) (place_order exchange order).

(** [calculate_position_size(exchange, symbol, position_size)] with its two
    exchange reads. *)
Definition sized_quantity (symbol : string) (position_size : size_spec) : M Q :=
  capital <- do_get_account_balance "USDT" ;;
  current_price <- do_get_current_price symbol ;;
  lift (calculate_position_size capital current_price position_size).

(** The best-effort stop-loss attachment of [open_position]; every exception
    raised inside is logged and swallowed. *)
Definition attach_stop_loss (symbol side : string) (stop_loss_percent : option Q) : M unit :=
  match stop_loss_percent, place_position_tpsl exchange with
  | Some pct, Some tpsl =>
      try_except
        (position <- do_get_pending_positions symbol ;;
         match position with
         | Some p =>
             let entry_price := avgOpenPrice p in
             let sl_price := calculate_stop_loss_price entry_price side pct in
             perform (PlacePositionTpsl symbol (positionId p) sl_price)
                     (tpsl symbol (positionId p) sl_price)
         | None => ret tt
         end)
        (fun _ => ret tt)
  | _, _ => ret tt
  end.

Definition open_position (symbol direction : string) (position_size : size_spec)
    (stop_loss_percent : option Q) : M unit :=
  let side := PyStr.upper direction in
  qty <- sized_quantity symbol position_size ;;
  order_response <-
    do_place_order {| o_symbol := symbol; o_qty := qty; o_side := side;
                      o_trade_side := "OPEN"; o_order_type := "MARKET" |} ;;
  attach_stop_loss symbol side stop_loss_percent ;;;
  ret order_response.

(** [position.positionId]; on [None] the attribute access fails. *)
Definition position_id_of (position : option Position) : M string :=
  match position with
  | Some p => ret (positionId p)
  | None => raise AttributeError
  end.

Definition case_is (interpretation : string) (current_position : option string)
    (sig : string) (pos : option string) : bool :=
  String.eqb interpretation sig && opt_string_eqb current_position pos.

(** The [match (interpretation, current_position)] statement of runner.py;
    the first matching case runs, and no case means no action. *)
Definition match_block (interpretation : string) (current_position : option string)
    (position : option Position) (position_size_spec : size_spec) : M unit :=
  if case_is interpretation current_position "Bullish" None then
    open_position SYMBOL "buy" position_size_spec STOP_LOSS_PERCENT
  else if case_is interpretation current_position "Bullish" (Some "sell") then
    pid <- position_id_of position ;;
    do_flash_close_position pid ;;;
    open_position SYMBOL "buy" position_size_spec STOP_LOSS_PERCENT
  else if case_is interpretation current_position "Bullish" (Some "buy") then
    ret tt
  else if case_is interpretation current_position "Bearish" None then
    open_position SYMBOL "sell" position_size_spec STOP_LOSS_PERCENT
  else if case_is interpretation current_position "Bearish" (Some "buy") then
    pid <- position_id_of position ;;
    do_flash_close_position pid ;;;
    open_position SYMBOL "sell" position_size_spec STOP_LOSS_PERCENT
  else if case_is interpretation current_position "Bearish" (Some "sell") then
    ret tt
  else if case_is interpretation current_position "Neutral" (Some "buy")
          || case_is interpretation current_position "Neutral" (Some "sell") then
    pid <- position_id_of position ;;
    do_flash_close_position pid
  else if case_is interpretation current_position "Neutral" None then
    ret tt
  else ret tt.

(** [normalize_position_side(position.side) if position else None] *)
Definition current_position_of (position : option Position) : option string :=
  match position with
  | Some p => normalize_position_side (side p)
  | None => None
  end.

(** The body of the [try] of runner.py (lines 151-199). *)
Definition trading_block (interpretation : string) (position_size_spec : size_spec) : M unit :=
  position <- do_get_pending_positions SYMBOL ;;
  let current_position := current_position_of position in
  do_get_account_balance "USDT" ;;;
  do_set_margin_mode SYMBOL MARGIN_MODE ;;;
  do_set_leverage SYMBOL LEVERAGE ;;;
  match_block interpretation current_position position position_size_spec.

(** The emergency handler (lines 204-212): re-query, flash-close what is
    found, and swallow any exception of these two calls. *)
Definition emergency_close : M unit :=
  try_except
    (position <- do_get_pending_positions SYMBOL ;;
     match position with
     | Some p => do_flash_close_position (positionId p)
     | None => ret tt
     end)
    (fun _ => ret tt).

(** One evaluation cycle from the position query on. *)
Definition run_cycle (interpretation : string) (position_size_spec : size_spec)
    : world -> cycle_outcome * world :=
  fun w =>
    match trading_block interpretation position_size_spec w with
    | (Ok _, w') => (RunCompleted, w')
    | (Raise _, w') => (RunFailed, snd (emergency_close w'))
    end.

(** What each action of the table means in exchange calls. *)
Definition perform_action (a : TradeAction) (position : option Position)
    (position_size_spec : size_spec) : M unit :=
  match a with
  | OpenLong => open_position SYMBOL "buy" position_size_spec STOP_LOSS_PERCENT
  | OpenShort => open_position SYMBOL "sell" position_size_spec STOP_LOSS_PERCENT
  | FlipToLong =>
      pid <- position_id_of position ;;
      do_flash_close_position pid ;;;
      open_position SYMBOL "buy" position_size_spec STOP_LOSS_PERCENT
  | FlipToShort =>
      pid <- position_id_of position ;;
      do_flash_close_position pid ;;;
      open_position SYMBOL "sell" position_size_spec STOP_LOSS_PERCENT
  | Hold => ret tt
  | Close =>
      pid <- position_id_of position ;;
      do_flash_close_position pid
  | NoOp => ret tt
  | EmergencyClose => emergency_close
  end.

End Engine.

Arguments get_pending_positions {X}.
Arguments get_account_balance {X}.
Arguments get_current_price {X}.
Arguments set_margin_mode {X}.
Arguments set_leverage {X}.
Arguments flash_close_position {X}.
Arguments place_order {X}.
Arguments place_position_tpsl {X}.
Arguments ret {X A}.
Arguments match_block {X}.
Arguments trading_block {X}.
Arguments emergency_close {X}.
Arguments run_cycle {X}.
Arguments perform_action {X}.
Arguments open_position {X}.
Arguments do_flash_close_position {X}.
Arguments position_id_of {X}.

(** ** runner.py: volatility scaling of the sizing spec *)

(** The [volatility_scale] chosen from the snapshot's ATR% (lines 92-98). *)
Definition volatility_scale (atr_pct : Q) : Q :=
  if Qle_bool 4 atr_pct then 5 # 10
  else if Qle_bool 3 atr_pct then 75 # 100
  else if Qle_bool atr_pct 1 then 11 # 10
  else 1.

(** [_scale_position_size_spec]; a percentage whose numeric part does not
    parse is returned unchanged (the non-finite literals, which Python would
    parse, are outside this model). *)
Definition _scale_position_size_spec (position_size : size_spec) (scale : Q) : size_spec :=
  if Qeq_bool scale 1 then position_size
  else
    match position_size with
    | SpecStr s =>
        if PyStr.endswith_char s "%" then
          match PyNum.py_float (PyStr.rstrip_by is_percent s) with
          | Some numeric =>
              let adjusted := Qmax (1 # 10) (numeric * scale) in
              SpecStr (PyFmt.format_f 2 adjusted ++ "%")
          | None => position_size
          end
        else position_size
    | SpecNum amount =>
        let adjusted := Qmax (1 # 100000000) (amount * scale) in
        SpecNum adjusted
    | SpecOther => position_size
    end.

(** ** market_data.py over binary64 floats *)

Module PyFloat.

Import PrimFloat.

(** [_period_pct_change] on a series of doubles: the same guards, the
    comparison [base == 0] and the quotient in IEEE arithmetic. *)
Definition _period_pct_change (series : list float) (bars : Z) : result float :=
  if ((Z.of_nat (List.length series) <=? bars) || (bars <=? 0))%Z then Ok zero
  else
    rbind (Pandas.iloc series (-1)) (fun latest =>
    rbind (Pandas.iloc series (- bars - 1)) (fun base =>
    if eqb base zero then Ok zero
    else Ok (div (sub latest base) base))).




End PyFloat.

(** ** The calls that change the position *)






(** Every character is in the ASCII range. *)
Fixpoint is_ascii_string (s : string) : bool :=
  match s with
  | EmptyString => true
  | String c r => (nat_of_ascii c <? 128)%nat && is_ascii_string r
  end.

(** ** Statements of the specification used for comparison *)

(** The bar count as the specification words it:
    [round(period_minutes / interval_minutes)], ties to even as Python's
    [round] does. *)
Definition rounded_bars (period_minutes interval_minutes : Z) : Z :=
  PyFmt.round_half_even (inject_Z period_minutes / inject_Z interval_minutes).

(** The numeric part of a percentage spec lies in (0, 100]. *)
Definition percent_in_range (s : string) : Prop :=
  exists pct, PyNum.py_float (PyStr.rstrip_by is_percent s) = Some pct /\ 0 < pct /\ pct <= 100.

(** When [calculate_position_size] is documented to fail validation. *)
Definition invalid_spec (capital : Q) (position_size : size_spec) : Prop :=
  match position_size with
  | SpecStr s =>
      PyStr.endswith_char s "%" = false \/
      (PyStr.endswith_char s "%" = true /\ ~ percent_in_range s)
  | SpecNum amount => amount <= 0 \/ capital < amount
  | SpecOther => False
  end.

Definition starts_any (side : string) (keys : list string) : bool :=
  existsb (PyStr.startswith side) keys.

(** ** Simulated exchanges *)

Definition long_position : Position :=
  {| side := Some "LONG"; positionId := "p-1"; avgOpenPrice := 100 |}.

Definition short_position : Position :=
  {| side := Some "SHORT"; positionId := "p-2"; avgOpenPrice := 100 |}.

Definition hedge_position : Position :=
  {| side := Some "HEDGE"; positionId := "p-3"; avgOpenPrice := 100 |}.

(** An exchange whose close endpoint is down: the long position stays open
    and every flash-close raises. *)
Definition stuck_exchange : Exchange unit :=
  {| get_pending_positions := fun _ x => (Ok (Some long_position), x);
     get_account_balance := fun _ x => (Ok 100, x);
     get_current_price := fun _ x => (Ok 50, x);
     set_margin_mode := fun _ _ x => (Ok tt, x);
     set_leverage := fun _ _ x => (Ok tt, x);
     flash_close_position := fun _ x => (Raise ExchangeFailure, x);
     place_order := fun _ x => (Ok tt, x);
     place_position_tpsl := None |}.

(** A paper exchange holding one short position ([true]: still open) and a
    balance of 5 USDT; flash-close closes the position. *)
Definition paper_exchange : Exchange bool :=
  {| get_pending_positions :=
       fun _ (x : bool) => (Ok (if x then Some short_position else None), x);
     get_account_balance := fun _ x => (Ok 5, x);
     get_current_price := fun _ x => (Ok 50, x);
     set_margin_mode := fun _ _ x => (Ok tt, x);
     set_leverage := fun _ _ x => (Ok tt, x);
     flash_close_position := fun _ _ => (Ok tt, false);
     place_order := fun _ x => (Ok tt, x);
     place_position_tpsl := None |}.

(** An exchange that opens the position but fails every stop-loss request. *)
Definition tpsl_failing_exchange : Exchange unit :=
  {| get_pending_positions := fun _ x => (Ok (Some long_position), x);
     get_account_balance := fun _ x => (Ok 100, x);
     get_current_price := fun _ x => (Ok 50, x);
     set_margin_mode := fun _ _ x => (Ok tt, x);
     set_leverage := fun _ _ x => (Ok tt, x);
     flash_close_position := fun _ x => (Ok tt, x);
     place_order := fun _ x => (Ok tt, x);
     place_position_tpsl := Some (fun _ _ _ x => (Raise ExchangeFailure, x)) |}.

(** The four calls that open every trading block. *)
Definition preparatory_calls : list call :=
  [ GetPendingPositions SYMBOL; GetAccountBalance "USDT";
    SetMarginMode SYMBOL MARGIN_MODE; SetLeverage SYMBOL LEVERAGE ].

Definition is_place_order (c : call) : bool :=
  match c with
  | PlaceOrder _ => true
  | _ => false
  end.

(** A computation leaves the recorded calls in place and only adds to them. *)
Definition appends_only {X A : Type} (m : M X A) : Prop :=
  forall w, exists t, snd (snd (m w)) = (snd w ++ t)%list.

(** A series of two candles, shorter than every indicator window. *)
Definition two_candles : list Candle :=
  [ {| c_open := 10; c_high := 12; c_low := 9; c_close := 11; c_volume := 5 |};
    {| c_open := 11; c_high := 13; c_low := 10; c_close := 12; c_volume := 7 |} ].

(** Defined entries of a series are non-negative (resp. zero). *)
Definition nonneg_opt (o : option Q) : Prop :=
  match o with
  | Some x => 0 <= x
  | None => True
  end.

Definition zero_opt (o : option Q) : Prop :=
  match o with
  | Some x => x == 0
  | None => True
  end.

(** A price series that never falls. *)
Fixpoint non_decreasing_from (x : Q) (l : list Q) : Prop :=
  match l with
  | [] => True
  | y :: r => x <= y /\ non_decreasing_from y r
  end.

Definition non_decreasing (l : list Q) : Prop :=
  match l with
  | [] => True
  | x :: r => non_decreasing_from x r
  end.

(** The defined entries of [diff]: successive differences starting at [x]. *)
Fixpoint diffs_from (x : Q) (l : list Q) : Pandas.series :=
  match l with
  | [] => []
  | y :: r => Some (y - x) :: diffs_from y r
  end.

(** Sixty identical candles closing at 10. *)
Definition sixty_candles : list Candle :=
  repeat {| c_open := 10; c_high := 11; c_low := 9; c_close := 10; c_volume := 1 |} 60.

(** A snapshot whose 24h change is above the 0.5% threshold. *)
Definition snapshot_24h_up : MarketSnapshot :=
  {| symbol := "BTCUSDT"; interval := "15m";
     latest_close := 100; change_24h := 1 # 100; change_4h := 0;
     momentum_1h := 0; rsi := 50; sma_fast := 95; sma_slow := 90;
     atr_pct := 2; volume_24h := 10; volatility_24h := 0 |}.

(** The same snapshot with a flat 24h change. *)
Definition snapshot_24h_flat : MarketSnapshot :=
  {| symbol := "BTCUSDT"; interval := "15m";
     latest_close := 100; change_24h := 0; change_4h := 0;
     momentum_1h := 0; rsi := 50; sma_fast := 95; sma_slow := 90;
     atr_pct := 2; volume_24h := 10; volatility_24h := 0 |}.

(** * Properties *)

(** ** Signal fusion *)

Lemma normalize_signal_name (s : Signal) :
  _normalize_signal (Some (signal_name s)) = signal_name s.
Proof. destruct s; reflexivity. Qed.

(** C3. Fusion precedence on the four documented inputs, and rule 1: with
    an absent (None or empty) guardrail signal or an absent confidence the
    result is the normalised primary signal. *)
Theorem combine_signals_precedence :
  combine_signals (Some "Neutral") (Some "Bullish") (Some (60 # 100)) = "Bullish" /\
  combine_signals (Some "Bullish") (Some "Bearish") (Some (80 # 100)) = "Neutral" /\
  combine_signals (Some "Bullish") (Some "Bearish") (Some (60 # 100)) = "Bullish" /\
  combine_signals (Some "Bearish") (Some "Neutral") (Some (90 # 100)) = "Bearish" /\
  (forall ai tech conf,
      tech = None \/ tech = Some EmptyString \/ conf = None ->
      combine_signals ai tech conf = _normalize_signal ai).
Proof.
  repeat split; try reflexivity.
  intros ai tech conf [-> | [-> | ->]]; try reflexivity.
  unfold combine_signals.
  destruct (PyStr.truthy tech); [ | reflexivity ].
  destruct (_normalize_signal tech); reflexivity.
Qed.

Lemma combine_signals_precedence_witness :
  combine_signals (Some " bearish") (Some "Bullish") None = "Bearish".
Proof.
  destruct combine_signals_precedence as (_ & _ & _ & _ & H).
  rewrite (H (Some " bearish") (Some "Bullish") None).
  - reflexivity.
  - right; right; reflexivity.
Defined.

(** ** Position side labels *)

Lemma match_block_no_side {X : Type} (E : Exchange X) interp position position' spec :
  match_block E interp None position spec = match_block E interp None position' spec.
Proof.
  unfold match_block, case_is; simpl opt_string_eqb.
  rewrite !andb_false_r, !andb_true_r; simpl.
  destruct (String.eqb interp "Bullish"); [ reflexivity | ].
  destruct (String.eqb interp "Bearish"); reflexivity.
Qed.

(** C10. [normalize_position_side] yields "buy" for a label whose trimmed
    upper-case form starts with BUY, BID or LONG, "sell" for SELL, ASK or
    SHORT, and None for anything else (None and the empty string included);
    the decision block treats a position whose label is not recognised
    exactly as it treats no position. *)
Theorem normalize_position_side_cases :
  (forall raw,
      normalize_position_side raw =
      match raw with
      | None => None
      | Some s =>
          let u := PyStr.upper (PyStr.strip s) in
          if starts_any u ["BUY"; "BID"; "LONG"] then Some "buy"
          else if starts_any u ["SELL"; "ASK"; "SHORT"] then Some "sell"
          else None
      end) /\
  (forall (X : Type) (E : Exchange X) p interp spec,
      normalize_position_side (side p) = None ->
      current_position_of (Some p) = None /\
      match_block E interp (current_position_of (Some p)) (Some p) spec =
      match_block E interp (current_position_of None) None spec).
Proof.
  split.
  - intros [s | ]; [ | reflexivity ].
    destruct s as [ | c s ]; [ reflexivity | ].
    unfold normalize_position_side, starts_any.
    cbv [PyStr.truthy negb first_prefix side_mapping existsb].
    cbv zeta.
    destruct (PyStr.startswith _ "BUY"); [ reflexivity | ].
    destruct (PyStr.startswith _ "BID"); [ reflexivity | ].
    destruct (PyStr.startswith _ "LONG"); [ reflexivity | ].
    destruct (PyStr.startswith _ "SELL"); [ reflexivity | ].
    destruct (PyStr.startswith _ "ASK"); [ reflexivity | ].
    destruct (PyStr.startswith _ "SHORT"); reflexivity.
  - intros X E p interp spec H.
    unfold current_position_of; rewrite H.
    split; [ reflexivity | apply match_block_no_side ].
Qed.

Lemma normalize_position_side_cases_witness :
  match_block stuck_exchange "Bullish" (current_position_of (Some hedge_position))
              (Some hedge_position) (SpecNum 20) =
  match_block stuck_exchange "Bullish" None None (SpecNum 20).
Proof.
  destruct normalize_position_side_cases as [_ H].
  apply (H unit stuck_exchange hedge_position "Bullish" (SpecNum 20)).
  reflexivity.
Defined.

(** ** Position sizing *)

Lemma Qlt_bool_iff (a b : Q) : Qlt_bool a b = true <-> a < b.
Proof.
  unfold Qlt_bool. rewrite negb_true_iff. split.
  - intros H. apply Qnot_le_lt. intros Hle.
    apply Qle_bool_iff in Hle. congruence.
  - intros H. destruct (Qle_bool b a) eqn:E; [ | reflexivity ].
    apply Qle_bool_iff in E. exfalso. apply (Qlt_not_le _ _ H E).
Qed.

Lemma Qlt_bool_false_iff (a b : Q) : Qlt_bool a b = false <-> b <= a.
Proof.
  unfold Qlt_bool. rewrite negb_false_iff. apply Qle_bool_iff.
Qed.

Lemma Qle_bool_false_iff (a b : Q) : Qle_bool a b = false <-> b < a.
Proof.
  rewrite <- Qlt_bool_iff. unfold Qlt_bool.
  destruct (Qle_bool a b); simpl; split; congruence.
Qed.

Lemma sized_or_zero_division (price q : Q) :
  (if Qeq_bool price 0 then @Raise Q ZeroDivisionError else Ok (q / price))
  <> Raise ValueError /\
  (if Qeq_bool price 0 then @Raise Q ZeroDivisionError else Ok (q / price))
  <> Raise TypeError.
Proof. destruct (Qeq_bool price 0); split; discriminate. Qed.

Lemma position_size_value_error (capital price : Q) (spec : size_spec) :
  calculate_position_size capital price spec = Raise ValueError <->
  invalid_spec capital spec.
Proof.
  unfold calculate_position_size, invalid_spec, percent_in_range.
  destruct spec as [s | amount | ].
  - destruct (PyStr.endswith_char s "%") eqn:Hend; simpl.
    + destruct (PyNum.py_float (PyStr.rstrip_by is_percent s)) as [pct | ] eqn:Hp; simpl.
      * destruct (Qlt_bool 0 pct) eqn:H0; destruct (Qle_bool pct 100) eqn:H100; simpl.
        -- split.
           ++ intros H. exfalso. exact (proj1 (sized_or_zero_division _ _) H).
           ++ intros [H | [_ H]]; [ discriminate | ].
              exfalso. apply H. exists pct. repeat split.
              ** now apply Qlt_bool_iff.
              ** now apply Qle_bool_iff.
        -- split; [ intros _ | reflexivity ].
           right. split; [ reflexivity | ].
           intros (p & Hp' & _ & Hle). injection Hp' as <-.
           apply Qle_bool_iff in Hle. congruence.
        -- split; [ intros _ | reflexivity ].
           right. split; [ reflexivity | ].
           intros (p & Hp' & Hlt & _). injection Hp' as <-.
           apply Qlt_bool_iff in Hlt. congruence.
        -- split; [ intros _ | reflexivity ].
           right. split; [ reflexivity | ].
           intros (p & Hp' & Hlt & _). injection Hp' as <-.
           apply Qlt_bool_iff in Hlt. congruence.
      * split; [ intros _ | reflexivity ].
        right. split; [ reflexivity | ].
        intros (p & Hp' & _). discriminate.
    + split; [ intros _; left; reflexivity | reflexivity ].
  - destruct (Qle_bool amount 0) eqn:H0; simpl.
    + split; [ intros _ | reflexivity ].
      left. now apply Qle_bool_iff.
    + destruct (Qlt_bool capital amount) eqn:Hc; simpl.
      * split; [ intros _ | reflexivity ].
        right. now apply Qlt_bool_iff.
      * split.
        -- intros H. exfalso. exact (proj1 (sized_or_zero_division _ _) H).
        -- apply Qle_bool_false_iff in H0. apply Qlt_bool_false_iff in Hc.
           intros [H | H]; exfalso.
           ++ apply (Qlt_not_le _ _ H0 H).
           ++ apply (Qlt_not_le _ _ H Hc).
  - simpl. split; [ discriminate | contradiction ].
Qed.

Lemma position_size_type_error (capital price : Q) (spec : size_spec) :
  calculate_position_size capital price spec = Raise TypeError <-> spec = SpecOther.
Proof.
  split; [ | intros ->; reflexivity ].
  unfold calculate_position_size.
  destruct spec as [s | amount | ]; [ | | reflexivity ]; intros H; exfalso; revert H.
  - destruct (PyStr.endswith_char s "%"); [ | discriminate ].
    destruct (PyNum.py_float (PyStr.rstrip_by is_percent s)) as [pct | ]; [ | discriminate ].
    destruct (negb (Qlt_bool 0 pct && Qle_bool pct 100)); [ discriminate | ].
    simpl. exact (proj2 (sized_or_zero_division _ _)).
  - destruct (Qle_bool amount 0); [ discriminate | ].
    destruct (Qlt_bool capital amount); [ discriminate | ].
    simpl. exact (proj2 (sized_or_zero_division _ _)).
Qed.

(** C4. Sizing: "10%" of 1000 at price 50 is 2 and a fixed 150 is 3; a
    ValueError is raised exactly when the spec is a string without the
    final '%', a percentage string whose numeric part is not a number in
    (0, 100], or a fixed amount that is non-positive or above the capital
    (1500 against 1000, "150%"); a TypeError exactly for a spec that is
    neither a string nor a number. *)
Theorem calculate_position_size_cases :
  (exists q, calculate_position_size 1000 50 (SpecStr "10%") = Ok q /\ q == 2) /\
  (exists q, calculate_position_size 1000 50 (SpecNum 150) = Ok q /\ q == 3) /\
  (forall price, calculate_position_size 1000 price (SpecNum 1500) = Raise ValueError) /\
  (forall capital price,
      calculate_position_size capital price (SpecStr "150%") = Raise ValueError) /\
  (forall capital price spec,
      calculate_position_size capital price spec = Raise ValueError <->
      invalid_spec capital spec) /\
  (forall capital price spec,
      calculate_position_size capital price spec = Raise TypeError <->
      spec = SpecOther).
Proof.
  split; [ eexists; split; [ reflexivity | reflexivity ] | ].
  split; [ eexists; split; [ reflexivity | reflexivity ] | ].
  split; [ reflexivity | ].
  split; [ reflexivity | ].
  split.
  - apply position_size_value_error.
  - apply position_size_type_error.
Qed.

Lemma calculate_position_size_cases_witness :
  calculate_position_size 10 50 (SpecNum 20) = Raise ValueError.
Proof.
  destruct calculate_position_size_cases as (_ & _ & _ & _ & H & _).
  apply (H 10 50 (SpecNum 20)).
  right. reflexivity.
Defined.

(** ** Percent change *)

Lemma iloc_in_range {A : Type} (s : list A) (i : Z) :
  (- Z.of_nat (length s) <= i < 0)%Z -> exists x, Pandas.iloc s i = Ok x.
Proof.
  intros Hi. unfold Pandas.iloc.
  assert (Hneg : (i <? 0)%Z = true) by (apply Z.ltb_lt; lia).
  rewrite Hneg.
  assert (Hlo : (Z.of_nat (length s) + i <? 0)%Z = false) by (apply Z.ltb_ge; lia).
  assert (Hhi : (Z.of_nat (length s) <=? Z.of_nat (length s) + i)%Z = false)
    by (apply Z.leb_gt; lia).
  rewrite Hlo, Hhi. simpl.
  destruct (nth_error s (Z.to_nat (Z.of_nat (length s) + i))) as [x | ] eqn:E.
  - now exists x.
  - apply nth_error_None in E. lia.
Qed.

(** ** Bar counts *)

Lemma quot_is_floor (a b : Z) : (0 <= a)%Z -> (0 < b)%Z -> Z.quot a b = (a / b)%Z.
Proof. intros Ha Hb. apply Z.quot_div_nonneg; lia. Qed.

(** C7 as the specification states it fails on the 6h interval: the 4h bar
    count of the code is 0 while [round(240 / 360)] is 1. *)
Lemma bar_counts_not_rounded :
  _interval_to_minutes "6h" = Ok 360%Z /\
  period_bars (4 * 60) "6h" = Ok 0%Z /\
  rounded_bars (4 * 60) 360 = 1%Z /\
  period_bars (4 * 60) "6h" <> Ok (rounded_bars (4 * 60) 360).
Proof.
  repeat split; try reflexivity. discriminate.
Qed.

(** ** The scorer: score and confidence bounds *)

Lemma capped_bias_bounds (x : Q) : 0 <= x -> 0 <= Qmin (2 # 10) x /\ Qmin (2 # 10) x <= 2 # 10.
Proof.
  intros Hx. split.
  - apply Q.min_glb; [ lra | exact Hx ].
  - apply Q.le_min_l.
Qed.

Lemma div100_nonneg (x : Q) : 0 <= x -> 0 <= x / 100.
Proof.
  intros Hx. unfold Qdiv. apply Qmult_le_0_compat; [ exact Hx | ].
  unfold Qle; simpl; lia.
Qed.

Ltac split_threshold c :=
  destruct c eqn:?.

Lemma score_bound (s : MarketSnapshot) : Qabs (fst (score_and_parts s)) <= 9 # 10.
Proof.
  unfold score_and_parts.
  assert (Hstrong : Qle_bool 55 (rsi s) = true ->
                    0 <= Qmin (2 # 10) ((rsi s - 55) / 100) /\
                    Qmin (2 # 10) ((rsi s - 55) / 100) <= 2 # 10).
  { intros H. apply Qle_bool_iff in H. apply capped_bias_bounds.
    apply div100_nonneg. lra. }
  assert (Hweak : Qle_bool (rsi s) 45 = true ->
                  0 <= Qmin (2 # 10) ((45 - rsi s) / 100) /\
                  Qmin (2 # 10) ((45 - rsi s) / 100) <= 2 # 10).
  { intros H. apply Qle_bool_iff in H. apply capped_bias_bounds.
    apply div100_nonneg. lra. }
  set (strong := Qmin (2 # 10) ((rsi s - 55) / 100)) in *.
  set (weak := Qmin (2 # 10) ((45 - rsi s) / 100)) in *.
  split_threshold (Qlt_bool (sma_slow s) (latest_close s));
  split_threshold (Qlt_bool (sma_slow s) (sma_fast s));
  (split_threshold (Qle_bool 55 (rsi s));
   [ destruct (Hstrong eq_refl)
   | split_threshold (Qle_bool (rsi s) 45); [ destruct (Hweak eq_refl) | ] ]);
  (split_threshold (Qle_bool (2 # 1000) (momentum_1h s));
   [ | split_threshold (Qle_bool (momentum_1h s) (- (2 # 1000))) ]);
  (split_threshold (Qle_bool (5 # 1000) (change_24h s));
   [ | split_threshold (Qle_bool (change_24h s) (- (5 # 1000))) ]);
  cbn [fst]; apply Qabs_Qle_condition; split; lra.
Qed.

Lemma derive_signal_name (s : MarketSnapshot) :
  exists sig : Signal, signal (derive_signal s) = signal_name sig.
Proof.
  unfold derive_signal. destruct (score_and_parts s) as [score parts]. simpl.
  destruct (Qlt_bool (15 # 100) score); [ now exists Bullish | ].
  destruct (Qlt_bool score (- (15 # 100))); [ now exists Bearish | now exists Neutral ].
Qed.

Lemma derive_signal_confidence (s : MarketSnapshot) :
  confidence (derive_signal s) =
  Qmax (45 # 100) (Qmin (95 # 100) ((55 # 100) + Qabs (fst (score_and_parts s)))).
Proof.
  unfold derive_signal. destruct (score_and_parts s) as [score parts]. reflexivity.
Qed.

(** C9. The score of [derive_signal] is at most 0.25+0.20+0.20+0.15+0.10 in
    absolute value and its confidence lies in [0.55, 0.95]; the lower clamp
    at 0.45 never applies; with a Neutral primary signal the fusion therefore
    always follows the guardrail produced by this scorer. *)
Theorem derive_signal_confidence_range (s : MarketSnapshot) :
  Qabs (fst (score_and_parts s)) <= (25 # 100) + (2 # 10) + (2 # 10) + (15 # 100) + (1 # 10) /\
  55 # 100 <= confidence (derive_signal s) /\
  confidence (derive_signal s) <= 95 # 100 /\
  confidence (derive_signal s) == Qmin (95 # 100) ((55 # 100) + Qabs (fst (score_and_parts s))) /\
  Qle_bool (55 # 100) (confidence (derive_signal s)) = true /\
  combine_signals (Some "Neutral") (Some (signal (derive_signal s)))
                  (Some (confidence (derive_signal s))) = signal (derive_signal s).
Proof.
  pose proof (score_bound s) as Hs.
  pose proof (Qabs_nonneg (fst (score_and_parts s))) as Ha.
  rewrite derive_signal_confidence.
  set (a := Qabs (fst (score_and_parts s))) in *.
  assert (Hmin : 55 # 100 <= Qmin (95 # 100) ((55 # 100) + a)).
  { apply Q.min_glb; lra. }
  assert (Hlo : 55 # 100 <= Qmax (45 # 100) (Qmin (95 # 100) ((55 # 100) + a))).
  { eapply Qle_trans; [ exact Hmin | apply Q.le_max_r ]. }
  split; [ lra | ].
  split; [ exact Hlo | ].
  split.
  { apply Q.max_lub; [ lra | apply Q.le_min_l ]. }
  split.
  { apply Q.max_r. lra. }
  assert (Hb : Qle_bool (55 # 100) (Qmax (45 # 100) (Qmin (95 # 100) ((55 # 100) + a))) = true).
  { apply Qle_bool_iff. exact Hlo. }
  split; [ exact Hb | ].
  destruct (derive_signal_name s) as [sig ->].
  unfold combine_signals.
  rewrite Hb.
  destruct sig; reflexivity.
Qed.

(** ** The scorer: rationale *)

(** C6. On a snapshot whose 24h change is above the threshold the 24h term
    adds 0.1 to the score, yet the rationale holds no part for it: it is the
    same string as for a flat 24h change. *)
Theorem rationale_omits_change_24h :
  fst (score_and_parts snapshot_24h_up) ==
    fst (score_and_parts snapshot_24h_flat) + (1 # 10) /\
  snd (score_and_parts snapshot_24h_up) =
    ["Price above long SMA (100 vs 90)"; "SMA20>SMA60"] /\
  rationale (derive_signal snapshot_24h_up) =
    "Price above long SMA (100 vs 90); SMA20>SMA60" /\
  rationale (derive_signal snapshot_24h_up) = rationale (derive_signal snapshot_24h_flat).
Proof.
  repeat split; reflexivity.
Qed.

(** ** The decision engine *)


Example flip_to_long_trace :
  snd (snd (run_cycle paper_exchange "Bullish" (SpecNum 2) (true, []))) =
  [ GetPendingPositions "BTCUSDT"; GetAccountBalance "USDT";
    SetMarginMode "BTCUSDT" "ISOLATION"; SetLeverage "BTCUSDT" 1;
    FlashClosePosition "p-2";
    GetAccountBalance "USDT"; GetCurrentPrice "BTCUSDT";
    PlaceOrder {| o_symbol := "BTCUSDT"; o_qty := 2 / 50; o_side := "BUY";
                  o_trade_side := "OPEN"; o_order_type := "MARKET" |} ].
Proof. reflexivity. Qed.

Example hold_trace :
  run_cycle paper_exchange "Bearish" (SpecNum 2) (true, []) =
  (RunCompleted,
   (true, [ GetPendingPositions "BTCUSDT"; GetAccountBalance "USDT";
            SetMarginMode "BTCUSDT" "ISOLATION"; SetLeverage "BTCUSDT" 1 ])).
Proof. reflexivity. Qed.

Lemma flash_closes_app (t1 t2 : list call) :
  flash_closes (t1 ++ t2) = (flash_closes t1 + flash_closes t2)%nat.
Proof.
  unfold flash_closes. rewrite filter_app. apply length_app.
Qed.

(** C1 (as amended). When the trading block raises, the handler re-queries
    the position; if the answer is a position it issues exactly one
    flash-close call, for that position, and if the answer is None it
    issues none.  These calls come after whatever the trading block had
    already issued before the exception. *)
Theorem emergency_close_after_failure {X : Type} (E : Exchange X)
    (interpretation : string) (position_size_spec : size_spec)
    (w w1 : world X) (e : exn) :
  trading_block E interpretation position_size_spec w = (Raise e, w1) ->
  (forall p x2,
      get_pending_positions E SYMBOL (fst w1) = (Ok (Some p), x2) ->
      exists w2,
        run_cycle E interpretation position_size_spec w = (RunFailed, w2) /\
        snd w2 = (snd w1 ++ [GetPendingPositions SYMBOL;
                             FlashClosePosition (positionId p)])%list /\
        flash_closes (snd w2) = S (flash_closes (snd w1))) /\
  (forall x2,
      get_pending_positions E SYMBOL (fst w1) = (Ok None, x2) ->
      exists w2,
        run_cycle E interpretation position_size_spec w = (RunFailed, w2) /\
        snd w2 = (snd w1 ++ [GetPendingPositions SYMBOL])%list /\
        flash_closes (snd w2) = flash_closes (snd w1)).
Proof.
  intros Hraise. unfold run_cycle. rewrite Hraise.
  unfold emergency_close, try_except, bind, do_get_pending_positions,
    do_flash_close_position, perform, ret.
  destruct w1 as [x1 t1]. cbn [fst snd].
  split.
  - intros p x2 Hq. rewrite Hq. cbn [fst snd].
    destruct (flash_close_position E (positionId p) x2) as [[ [] | e' ] x3];
      eexists; (split; [ reflexivity | ]); cbn [snd];
      rewrite <- app_assoc; (split; [ reflexivity | ]);
      rewrite flash_closes_app; cbn; lia.
  - intros x2 Hq. rewrite Hq. cbn [fst snd].
    eexists. split; [ reflexivity | ]. cbn [snd].
    split; [ reflexivity | ].
    rewrite flash_closes_app. cbn. lia.
Qed.

Lemma emergency_close_after_failure_witness :
  exists w2,
    run_cycle stuck_exchange "Neutral" (SpecNum 20) (tt, []) = (RunFailed, w2) /\
    snd w2 =
      [ GetPendingPositions "BTCUSDT"; GetAccountBalance "USDT";
        SetMarginMode "BTCUSDT" "ISOLATION"; SetLeverage "BTCUSDT" 1;
        FlashClosePosition "p-1";
        GetPendingPositions "BTCUSDT"; FlashClosePosition "p-1" ] /\
    flash_closes (snd w2) = 2%nat.
Proof.
  exact (proj1 (emergency_close_after_failure stuck_exchange "Neutral" (SpecNum 20)
                  (tt, [])
                  (tt, [ GetPendingPositions "BTCUSDT"; GetAccountBalance "USDT";
                         SetMarginMode "BTCUSDT" "ISOLATION"; SetLeverage "BTCUSDT" 1;
                         FlashClosePosition "p-1" ])
                  ExchangeFailure eq_refl)
               long_position tt eq_refl).
Defined.

(** C1 as the specification states it counts the flash-close calls of the
    whole cycle.  With a Neutral signal on a long position and a failing
    close endpoint the cycle issues two of them although the re-queried
    position is not None; with a Bullish signal on a short position, a
    successful close and a failing sizing, it issues one although the
    re-queried position is None. *)
Lemma fail_safe_count_differs :
  (trading_block stuck_exchange "Neutral" (SpecNum 20) (tt, []) =
     (Raise ExchangeFailure,
      (tt, [ GetPendingPositions "BTCUSDT"; GetAccountBalance "USDT";
             SetMarginMode "BTCUSDT" "ISOLATION"; SetLeverage "BTCUSDT" 1;
             FlashClosePosition "p-1" ])) /\
   get_pending_positions stuck_exchange SYMBOL tt = (Ok (Some long_position), tt) /\
   flash_closes (snd (snd (run_cycle stuck_exchange "Neutral" (SpecNum 20) (tt, []))))
     = 2%nat) /\
  (trading_block paper_exchange "Bullish" (SpecNum 20) (true, []) =
     (Raise ValueError,
      (false, [ GetPendingPositions "BTCUSDT"; GetAccountBalance "USDT";
                SetMarginMode "BTCUSDT" "ISOLATION"; SetLeverage "BTCUSDT" 1;
                FlashClosePosition "p-2";
                GetAccountBalance "USDT"; GetCurrentPrice "BTCUSDT" ])) /\
   get_pending_positions paper_exchange SYMBOL false = (Ok None, false) /\
   flash_closes (snd (snd (run_cycle paper_exchange "Bullish" (SpecNum 20) (true, []))))
     = 1%nat).
Proof.
  repeat split; reflexivity.
Qed.

(** ** Indicator fallbacks *)

Section SeriesFacts.

Import Pandas.

Lemma nth_map_default {A B : Type} (f : A -> B) (l : list A) (i : nat) (d : A) (d' : B) :
  (i < length l)%nat -> nth i (map f l) d' = f (nth i l d).
Proof.
  intros Hi. rewrite (nth_indep _ d' (f d)) by (rewrite length_map; exact Hi).
  apply map_nth.
Qed.

Lemma length_zip_with f (a b : series) :
  length (zip_with f a b) = Nat.min (length a) (length b).
Proof.
  revert b. induction a as [ | x a IH ]; intros [ | y b ]; simpl; try reflexivity.
  now rewrite IH.
Qed.

Lemma length_zip_with3 f (a b c : series) :
  length (zip_with3 f a b c) = Nat.min (length a) (Nat.min (length b) (length c)).
Proof.
  revert b c. induction a as [ | x a IH ]; intros [ | y b ] [ | z c ]; simpl; try reflexivity.
  now rewrite IH.
Qed.

Lemma nth_zip_with f (a b : series) (i : nat) :
  (i < length a)%nat -> (i < length b)%nat ->
  nth i (zip_with f a b) None = f (nth i a None) (nth i b None).
Proof.
  revert b i. induction a as [ | x a IH ]; intros [ | y b ] i Ha Hb; simpl in *; try lia.
  destruct i as [ | i ]; [ reflexivity | ].
  apply IH; lia.
Qed.

Lemma length_removelast {A : Type} (l : list A) : length (removelast l) = (length l - 1)%nat.
Proof.
  induction l as [ | x l IH ]; [ reflexivity | ].
  destruct l as [ | y l ]; [ reflexivity | ].
  change (length (x :: removelast (y :: l)) = (length (x :: y :: l) - 1)%nat).
  simpl length in *. rewrite IH. lia.
Qed.

Lemma length_shift1 (s : series) : length (shift1 s) = length s.
Proof.
  destruct s as [ | x s ]; [ reflexivity | ].
  change (S (length (removelast (x :: s))) = length (x :: s)).
  rewrite length_removelast. simpl. lia.
Qed.

Lemma length_of_floats (l : list Q) : length (of_floats l) = length l.
Proof. apply length_map. Qed.

Lemma length_diff (s : series) : length (diff s) = length s.
Proof.
  unfold diff. rewrite length_zip_with, length_shift1. apply Nat.min_id.
Qed.

Lemma length_pct_change (s : series) : length (pct_change s) = length s.
Proof.
  unfold pct_change. rewrite !length_zip_with, !length_shift1. lia.
Qed.

Lemma length_rolling (w : nat) agg (s : series) : length (rolling w agg s) = length s.
Proof. unfold rolling. now rewrite length_map, length_seq. Qed.

Lemma length_valid (l : series) : (length (valid l) <= length l)%nat.
Proof.
  induction l as [ | [x | ] l IH ]; simpl; lia.
Qed.

Lemma length_window_at (w : nat) (s : series) (i : nat) :
  (length (window_at w s i) <= length s)%nat.
Proof.
  unfold window_at. rewrite length_skipn, length_firstn. lia.
Qed.

Lemma nth_rolling (w : nat) agg (s : series) (i : nat) :
  (i < length s)%nat ->
  nth i (rolling w agg s) None =
  (let v := valid (window_at w s i) in if (length v <? w)%nat then None else agg v).
Proof.
  intros Hi. unfold rolling.
  rewrite (nth_map_default _ _ i 0%nat) by (rewrite length_seq; exact Hi).
  rewrite seq_nth by exact Hi. reflexivity.
Qed.

(** With fewer points than the window, every rolling value is undefined. *)
Lemma nth_rolling_short (w : nat) agg (s : series) (i : nat) :
  (i < length s)%nat -> (length s < w)%nat -> nth i (rolling w agg s) None = None.
Proof.
  intros Hi Hw. rewrite nth_rolling by exact Hi. cbv zeta.
  pose proof (length_valid (window_at w s i)) as H1.
  pose proof (length_window_at w s i) as H2.
  assert (H : (length (valid (window_at w s i)) <? w)%nat = true)
    by (apply Nat.ltb_lt; lia).
  now rewrite H.
Qed.

Lemma last_cons {A : Type} (r : list A) (x y : A) : last (y :: r) x = last r y.
Proof.
  revert x y. induction r as [ | z r IH ]; intros x y; [ reflexivity | ].
  change (last (y :: z :: r) x) with (last (z :: r) x).
  rewrite (IH x z), (IH y z). reflexivity.
Qed.

Lemma last_nth {A : Type} (r : list A) (x d : A) : last r x = nth (length r) (x :: r) d.
Proof.
  revert x. induction r as [ | y r IH ]; intros x; [ reflexivity | ].
  rewrite (last_cons r x y), (IH y). reflexivity.
Qed.

Lemma iloc_last_nth {A : Type} (s : list A) (d : A) :
  (0 < length s)%nat -> iloc_last s = Ok (nth (length s - 1) s d).
Proof.
  destruct s as [ | x r ]; [ simpl; lia | intros _ ].
  unfold iloc_last. f_equal.
  replace (length (x :: r) - 1)%nat with (length r) by (simpl; lia).
  apply last_nth.
Qed.

Lemma iloc_last_rolling_short (w : nat) agg (s : series) :
  (0 < length s)%nat -> (length s < w)%nat ->
  iloc_last (rolling w agg s) = Ok None.
Proof.
  intros Hpos Hw.
  rewrite (iloc_last_nth _ None) by (rewrite length_rolling; exact Hpos).
  rewrite length_rolling, nth_rolling_short; [ reflexivity | lia | exact Hw ].
Qed.

Lemma iloc_last_total {A : Type} (s : list A) :
  (0 < length s)%nat -> exists x, iloc_last s = Ok x.
Proof.
  destruct s as [ | x r ]; simpl; [ lia | intros _ ]. now eexists.
Qed.

End SeriesFacts.

Section IndicatorFacts.

Import Pandas.

Lemma length_rsi_ratio (series : list Q) (period : nat) :
  let delta := diff (of_floats series) in
  length (zip_with fdiv
            (rolling period mean (clip_lower 0 delta))
            (replace_zero_na (rolling period mean (neg (clip_upper 0 delta)))))
  = length series.
Proof.
  cbv zeta. unfold clip_lower, clip_upper, neg, replace_zero_na.
  rewrite length_zip_with, length_map, !length_rolling, !length_map,
    length_diff, length_of_floats.
  apply Nat.min_id.
Qed.

Lemma calculate_rsi_total (series : list Q) (period : nat) :
  (0 < length series)%nat -> exists q, _calculate_rsi series period = Ok q.
Proof.
  intros Hpos. unfold _calculate_rsi.
  match goal with
  | |- context [ iloc_last ?l ] =>
      destruct (iloc_last_total l) as [v Hv]
  end.
  - rewrite length_map, length_rsi_ratio. exact Hpos.
  - rewrite Hv. simpl. now eexists.
Qed.

Lemma calculate_rsi_short (series : list Q) (period : nat) :
  (0 < length series)%nat -> (length series < period)%nat ->
  _calculate_rsi series period = Ok 50.
Proof.
  intros Hpos Hshort. unfold _calculate_rsi.
  match goal with
  | |- context [ iloc_last (map ?g ?l) ] =>
      rewrite (iloc_last_nth (map g l) None)
        by (rewrite length_map, length_rsi_ratio; exact Hpos);
      rewrite length_map, length_rsi_ratio;
      rewrite (nth_map_default g l _ None None)
        by (rewrite length_rsi_ratio; lia)
  end.
  rewrite nth_zip_with.
  - rewrite nth_rolling_short; [ reflexivity | | ].
    + unfold clip_lower. rewrite length_map, length_diff, length_of_floats. lia.
    + unfold clip_lower. rewrite length_map, length_diff, length_of_floats. exact Hshort.
  - unfold clip_lower. rewrite length_rolling, length_map, length_diff, length_of_floats. lia.
  - unfold replace_zero_na, neg, clip_upper.
    rewrite length_map, length_rolling, !length_map, length_diff, length_of_floats. lia.
Qed.

Lemma length_true_range (high low close : list Q) :
  length high = length close -> length low = length close ->
  let h := of_floats high in
  let l := of_floats low in
  let prev_close := shift1 (of_floats close) in
  length (zip_with3 row_max3
            (zip_with (lift2 Qminus) h l)
            (sabs (zip_with (lift2 Qminus) h prev_close))
            (sabs (zip_with (lift2 Qminus) l prev_close)))
  = length close.
Proof.
  intros Hh Hl. cbv zeta. unfold sabs.
  rewrite length_zip_with3, !length_map, !length_zip_with, length_shift1,
    !length_of_floats.
  lia.
Qed.

Lemma calculate_atr_total (high low close : list Q) (period : nat) :
  length high = length close -> length low = length close ->
  (0 < length close)%nat ->
  exists q, _calculate_atr high low close period = Ok q.
Proof.
  intros Hh Hl Hpos. unfold _calculate_atr.
  match goal with
  | |- context [ iloc_last ?l ] =>
      destruct (iloc_last_total l) as [v Hv]
  end.
  - rewrite length_rolling. rewrite (length_true_range high low close Hh Hl). exact Hpos.
  - rewrite Hv. simpl. now eexists.
Qed.

Lemma calculate_atr_short (high low close : list Q) (period : nat) :
  length high = length close -> length low = length close ->
  (0 < length close)%nat -> (length close < period)%nat ->
  _calculate_atr high low close period = Ok 0.
Proof.
  intros Hh Hl Hpos Hshort. unfold _calculate_atr.
  rewrite iloc_last_rolling_short; [ reflexivity | | ];
    rewrite (length_true_range high low close Hh Hl); assumption.
Qed.

Lemma period_bars_floor (period_minutes : Z) (interval : string) (minutes : Z) :
  _interval_to_minutes interval = Ok minutes ->
  (0 < minutes)%Z -> (0 <= period_minutes)%Z ->
  period_bars period_minutes interval = Ok (period_minutes / minutes)%Z.
Proof.
  intros Hm Hpos Hp. unfold period_bars. rewrite Hm. simpl rbind.
  assert (Hz : (minutes =? 0)%Z = false) by (apply Z.eqb_neq; lia).
  rewrite Hz, quot_is_floor by lia. reflexivity.
Qed.

Lemma period_pct_change_total (series : list Q) (bars : Z) :
  exists q, _period_pct_change series bars = Ok q.
Proof.
  unfold _period_pct_change.
  destruct ((Z.of_nat (length series) <=? bars) || (bars <=? 0))%Z eqn:Hguard.
  - now eexists.
  - apply orb_false_iff in Hguard as [Hlen Hpos].
    apply Z.leb_gt in Hlen. apply Z.leb_gt in Hpos.
    destruct (iloc_in_range series (-1)) as [latest Hl]; [ lia | ].
    destruct (iloc_in_range series (- bars - 1)) as [base Hb]; [ lia | ].
    rewrite Hl, Hb. simpl.
    destruct (Qeq_bool base 0); now eexists.
Qed.

End IndicatorFacts.

(** C5. For a non-empty candle series and an interval of a positive number
    of minutes, [build_snapshot] returns a snapshot, and each indicator
    whose window is longer than the series takes its fallback: RSI(14) is
    50 and ATR% is 0 below 14 candles, SMA(20) and SMA(60) are the latest
    close below 20 and 60 candles, and the 24h volatility is 0 below the
    24h bar count.  Every field is a rational number, so no undefined value
    can appear. *)
Theorem indicator_fallbacks (fsqrt : Q -> Q) (sym interval : string)
    (klines : list Candle) (minutes : Z) :
  _interval_to_minutes interval = Ok minutes ->
  (0 < minutes)%Z ->
  (0 < length klines)%nat ->
  exists snap,
    build_snapshot fsqrt sym interval klines = Ok snap /\
    Pandas.iloc_last (map c_close klines) = Ok (latest_close snap) /\
    ((length klines < 14)%nat -> rsi snap = 50 /\ atr_pct snap == 0) /\
    ((length klines < 20)%nat -> sma_fast snap = latest_close snap) /\
    ((length klines < 60)%nat -> sma_slow snap = latest_close snap) /\
    ((Z.of_nat (length klines) < 1440 / minutes)%Z -> volatility_24h snap = 0).
Proof.
  intros Hm Hmin Hpos.
  assert (Hc : length (map c_close klines) = length klines) by apply length_map.
  assert (Hh : length (map c_high klines) = length (map c_close klines))
    by now rewrite !length_map.
  assert (Hl : length (map c_low klines) = length (map c_close klines))
    by now rewrite !length_map.
  assert (Hb : (0 <= 1440 / minutes)%Z) by (apply Z.div_pos; lia).
  unfold build_snapshot.
  rewrite (period_bars_floor (24 * 60) interval minutes Hm Hmin) by lia.
  rewrite (period_bars_floor (4 * 60) interval minutes Hm Hmin) by lia.
  rewrite (period_bars_floor 60 interval minutes Hm Hmin) by lia.
  change (24 * 60)%Z with 1440%Z. change (4 * 60)%Z with 240%Z.
  cbn [rbind].
  destruct (period_pct_change_total (map c_close klines) (1440 / minutes)) as [c24 H24].
  destruct (period_pct_change_total (map c_close klines) (240 / minutes)) as [c4 H4].
  destruct (period_pct_change_total (map c_close klines) (Z.max 1 (60 / minutes)))
    as [m1 H1].
  rewrite H24, H4, H1. cbn [rbind].
  destruct (calculate_rsi_total (map c_close klines) 14) as [r Hr]; [ lia | ].
  rewrite Hr. cbn [rbind].
  destruct (iloc_last_total
              (Pandas.rolling 20 Pandas.mean (Pandas.of_floats (map c_close klines))))
    as [m20 H20];
    [ rewrite length_rolling, length_of_floats; lia | ].
  rewrite H20. cbn [rbind].
  destruct (iloc_last_total (map c_close klines)) as [lc Hlc]; [ lia | ].
  rewrite Hlc. cbn [rbind].
  destruct (iloc_last_total
              (Pandas.rolling 60 Pandas.mean (Pandas.of_floats (map c_close klines))))
    as [m60 H60];
    [ rewrite length_rolling, length_of_floats; lia | ].
  rewrite H60. cbn [rbind].
  destruct (calculate_atr_total (map c_high klines) (map c_low klines)
              (map c_close klines) 14 Hh Hl) as [atr Hatr]; [ lia | ].
  rewrite Hatr. cbn [rbind].
  unfold rolling_std_last.
  assert (Hnn : (1440 / minutes <? 0)%Z = false) by (apply Z.ltb_ge; exact Hb).
  rewrite Hnn.
  destruct (iloc_last_total
              (Pandas.rolling (Z.to_nat (1440 / minutes)) (std fsqrt)
                 (Pandas.pct_change (Pandas.of_floats (map c_close klines)))))
    as [vol Hvol];
    [ rewrite length_rolling, length_pct_change, length_of_floats; lia | ].
  rewrite Hvol. cbn [rbind].
  eexists. split; [ reflexivity | ].
  cbn [latest_close rsi atr_pct sma_fast sma_slow volatility_24h].
  split; [ reflexivity | ].
  split; [ | split; [ | split ] ].
  - intros Hshort.
    rewrite calculate_rsi_short in Hr by lia.
    rewrite calculate_atr_short in Hatr by (assumption || lia).
    injection Hr as <-. injection Hatr as <-.
    split; [ reflexivity | ].
    destruct (Qeq_bool lc 0); [ reflexivity | ].
    unfold Qdiv. rewrite Qmult_0_l, Qmult_0_l. reflexivity.
  - intros Hshort.
    rewrite iloc_last_rolling_short in H20
      by (rewrite length_of_floats; lia).
    injection H20 as <-. reflexivity.
  - intros Hshort.
    rewrite iloc_last_rolling_short in H60
      by (rewrite length_of_floats; lia).
    injection H60 as <-. reflexivity.
  - intros Hshort.
    rewrite iloc_last_rolling_short in Hvol
      by (rewrite length_pct_change, length_of_floats; lia).
    injection Hvol as <-. reflexivity.
Qed.

Lemma indicator_fallbacks_witness :
  exists snap,
    build_snapshot (fun x => x) "BTCUSDT" "15m" two_candles = Ok snap /\
    latest_close snap = 12 /\
    rsi snap = 50 /\ atr_pct snap == 0 /\
    sma_fast snap = 12 /\ sma_slow snap = 12 /\ volatility_24h snap = 0.
Proof.
  destruct (indicator_fallbacks (fun x => x) "BTCUSDT" "15m" two_candles 15)
    as (snap & Hs & Hlast & H14 & H20 & H60 & Hvol).
  - reflexivity.
  - lia.
  - simpl; lia.
  - exists snap.
    assert (Hc : latest_close snap = 12) by (simpl in Hlast; congruence).
    destruct H14 as [Hrsi Hatr]; [ simpl; lia | ].
    rewrite H20, H60 by (simpl; lia).
    rewrite Hvol by (vm_compute; reflexivity).
    repeat split; assumption.
Defined.

(** * Further properties of the code *)

(** ** Signal normalisation *)

Lemma str_in_signal_names (s : string) :
  str_in s signal_names = true -> exists sig, s = signal_name sig.
Proof.
  unfold str_in, signal_names. cbn [existsb].
  destruct (String.eqb s "Bullish") eqn:E1.
  { apply String.eqb_eq in E1. now exists Bullish. }
  destruct (String.eqb s "Bearish") eqn:E2.
  { apply String.eqb_eq in E2. now exists Bearish. }
  destruct (String.eqb s "Neutral") eqn:E3.
  { apply String.eqb_eq in E3. now exists Neutral. }
  discriminate.
Qed.

Lemma normalize_signal_range (signal : option string) :
  exists sig, _normalize_signal signal = signal_name sig.
Proof.
  unfold _normalize_signal.
  destruct signal as [s | ]; [ | now exists Neutral ].
  destruct (PyStr.truthy (Some s)); cbn [negb]; [ | now exists Neutral ].
  destruct (str_in (PyStr.capitalize (PyStr.strip s)) signal_names) eqn:E; cbn [negb].
  - now apply str_in_signal_names.
  - now exists Neutral.
Qed.

(** X1. [_normalize_signal] always yields one of Bullish, Bearish, Neutral,
    whatever the input, and normalising its own output changes nothing. *)
Theorem normalize_signal_closed (signal : option string) :
  (exists sig, _normalize_signal signal = signal_name sig) /\
  _normalize_signal (Some (_normalize_signal signal)) = _normalize_signal signal.
Proof.
  destruct (normalize_signal_range signal) as [sig H].
  split; [ now exists sig | ].
  rewrite H. apply normalize_signal_name.
Qed.

Section CaseFolding.

Variable f : ascii -> ascii.
Hypothesis f_space : forall c, PyStr.is_space (f c) = PyStr.is_space c.

Lemma lstrip_smap (s : string) :
  PyStr.lstrip_by PyStr.is_space (PyStr.smap f s) =
  PyStr.smap f (PyStr.lstrip_by PyStr.is_space s).
Proof.
  induction s as [ | c r IH ]; [ reflexivity | ].
  simpl. rewrite f_space. destruct (PyStr.is_space c); [ exact IH | reflexivity ].
Qed.

Lemma rstrip_smap (s : string) :
  PyStr.rstrip_by PyStr.is_space (PyStr.smap f s) =
  PyStr.smap f (PyStr.rstrip_by PyStr.is_space s).
Proof.
  induction s as [ | c r IH ]; [ reflexivity | ].
  simpl. rewrite IH, f_space.
  destruct (PyStr.rstrip_by PyStr.is_space r); simpl;
    [ destruct (PyStr.is_space c); reflexivity | reflexivity ].
Qed.

Lemma strip_smap (s : string) : PyStr.strip (PyStr.smap f s) = PyStr.smap f (PyStr.strip s).
Proof. unfold PyStr.strip. now rewrite lstrip_smap, rstrip_smap. Qed.

End CaseFolding.

Lemma upper_char_space (c : ascii) : PyStr.is_space (PyStr.upper_char c) = PyStr.is_space c.
Proof. destruct c as [[] [] [] [] [] [] [] []]; reflexivity. Qed.

Lemma lower_char_space (c : ascii) : PyStr.is_space (PyStr.lower_char c) = PyStr.is_space c.
Proof. destruct c as [[] [] [] [] [] [] [] []]; reflexivity. Qed.

Lemma upper_upper_char (c : ascii) : PyStr.upper_char (PyStr.upper_char c) = PyStr.upper_char c.
Proof. destruct c as [[] [] [] [] [] [] [] []]; reflexivity. Qed.

Lemma lower_upper_char (c : ascii) : PyStr.lower_char (PyStr.upper_char c) = PyStr.lower_char c.
Proof. destruct c as [[] [] [] [] [] [] [] []]; reflexivity. Qed.

Lemma upper_lower_char (c : ascii) : PyStr.upper_char (PyStr.lower_char c) = PyStr.upper_char c.
Proof. destruct c as [[] [] [] [] [] [] [] []]; reflexivity. Qed.

Lemma lower_lower_char (c : ascii) : PyStr.lower_char (PyStr.lower_char c) = PyStr.lower_char c.
Proof. destruct c as [[] [] [] [] [] [] [] []]; reflexivity. Qed.

Lemma smap_smap (f g h : ascii -> ascii) (s : string) :
  (forall c, f (g c) = h c) -> PyStr.smap f (PyStr.smap g s) = PyStr.smap h s.
Proof.
  intros H. induction s as [ | c r IH ]; [ reflexivity | ].
  simpl. now rewrite H, IH.
Qed.

Lemma capitalize_upper (s : string) :
  PyStr.capitalize (PyStr.upper s) = PyStr.capitalize s.
Proof.
  destruct s as [ | c r ]; [ reflexivity | ].
  unfold PyStr.upper, PyStr.lower. simpl.
  rewrite upper_upper_char. f_equal. apply smap_smap, lower_upper_char.
Qed.

Lemma capitalize_lower (s : string) :
  PyStr.capitalize (PyStr.lower s) = PyStr.capitalize s.
Proof.
  destruct s as [ | c r ]; [ reflexivity | ].
  unfold PyStr.upper, PyStr.lower. simpl.
  rewrite upper_lower_char. f_equal. apply smap_smap, lower_lower_char.
Qed.

Lemma cleaned_upper (s : string) :
  PyStr.capitalize (PyStr.strip (PyStr.upper s)) = PyStr.capitalize (PyStr.strip s).
Proof.
  unfold PyStr.upper. rewrite (strip_smap _ upper_char_space).
  apply capitalize_upper.
Qed.

Lemma cleaned_lower (s : string) :
  PyStr.capitalize (PyStr.strip (PyStr.lower s)) = PyStr.capitalize (PyStr.strip s).
Proof.
  unfold PyStr.lower. rewrite (strip_smap _ lower_char_space).
  apply capitalize_lower.
Qed.

(** X2. On ASCII text signal normalisation ignores letter case: the
    upper-cased and the lower-cased form of a string of ASCII characters
    normalise to the same signal as the string itself. *)
Theorem normalize_signal_case_insensitive (s : string) :
  is_ascii_string s = true ->
  _normalize_signal (Some (PyStr.upper s)) = _normalize_signal (Some s) /\
  _normalize_signal (Some (PyStr.lower s)) = _normalize_signal (Some s).
Proof.
  intros _.
  unfold _normalize_signal. cbv zeta.
  rewrite cleaned_upper, cleaned_lower.
  split; destruct s; reflexivity.
Qed.

Lemma normalize_signal_case_insensitive_witness :
  _normalize_signal (Some (PyStr.upper " bUlLiSh ")) = "Bullish" /\
  _normalize_signal (Some (PyStr.lower " bUlLiSh ")) = "Bullish".
Proof.
  destruct (normalize_signal_case_insensitive " bUlLiSh ") as [Hu Hl];
    [ reflexivity | ].
  rewrite Hu, Hl. split; reflexivity.
Defined.

(** ** Signal fusion *)

Lemma combine_signals_unfold (ai tech : option string) (conf : option Q) :
  combine_signals ai tech conf =
  let a := _normalize_signal ai in
  if PyStr.truthy tech then
    match conf with
    | None => a
    | Some c =>
        let t := _normalize_signal tech in
        if String.eqb a t then a
        else if String.eqb a "Neutral" && Qle_bool (55 # 100) c then t
        else if String.eqb t "Neutral" then a
        else if Qle_bool (75 # 100) c then "Neutral"
        else a
    end
  else a.
Proof.
  unfold combine_signals. cbv zeta.
  destruct (PyStr.truthy tech); [ | reflexivity ].
  destruct (normalize_signal_range tech) as [st ->].
  destruct st, conf; reflexivity.
Qed.

Lemma combine_signals_range (ai tech : option string) (conf : option Q) :
  exists sig, combine_signals ai tech conf = signal_name sig.
Proof.
  rewrite combine_signals_unfold. cbv zeta.
  destruct (normalize_signal_range ai) as [sa ->].
  destruct (normalize_signal_range tech) as [st ->].
  destruct (PyStr.truthy tech); [ | now exists sa ].
  destruct conf as [c | ]; [ | now exists sa ].
  destruct sa, st; cbn;
    destruct (Qle_bool (55 # 100) c); destruct (Qle_bool (75 # 100) c); cbn;
    first [ now exists Bullish | now exists Bearish | now exists Neutral ].
Qed.

(** X3. The fused signal is always one of the three signals, and it is the
    normalised primary signal, or Neutral, or (only when the primary is
    Neutral) the guardrail's signal: the guardrail can flatten a directional
    primary signal but never reverse it. *)
Theorem combine_signals_never_reverses (ai tech : option string) (conf : option Q) :
  (exists sig, combine_signals ai tech conf = signal_name sig) /\
  (combine_signals ai tech conf = _normalize_signal ai \/
   combine_signals ai tech conf = "Neutral" \/
   (_normalize_signal ai = "Neutral" /\
    combine_signals ai tech conf = _normalize_signal tech)).
Proof.
  rewrite combine_signals_unfold. cbv zeta.
  destruct (normalize_signal_range ai) as [sa ->].
  destruct (normalize_signal_range tech) as [st ->].
  destruct (PyStr.truthy tech); [ | split; [ now exists sa | now left ] ].
  destruct conf as [c | ]; [ | split; [ now exists sa | now left ] ].
  destruct sa, st; cbn;
    destruct (Qle_bool (55 # 100) c); destruct (Qle_bool (75 # 100) c); cbn;
    (split;
     [ first [ now exists Bullish | now exists Bearish | now exists Neutral ]
     | first [ now left | now (right; left) | now (right; right; split) ] ]).
Qed.

(** X4. A guardrail whose confidence is below 0.55, or whose signal
    normalises to Neutral, never changes the outcome: the fused signal is the
    normalised primary signal. *)
Theorem combine_signals_weak_guardrail (ai tech : option string) (c : Q) :
  c < 55 # 100 \/ _normalize_signal tech = "Neutral" ->
  combine_signals ai tech (Some c) = _normalize_signal ai.
Proof.
  intros H. rewrite combine_signals_unfold. cbv zeta.
  destruct (PyStr.truthy tech); [ | reflexivity ].
  destruct (normalize_signal_range ai) as [sa Ha].
  destruct (normalize_signal_range tech) as [st Ht].
  rewrite Ha, Ht in *.
  destruct H as [H | H].
  - assert (H55 : Qle_bool (55 # 100) c = false) by (apply Qle_bool_false_iff; exact H).
    assert (H75 : Qle_bool (75 # 100) c = false) by (apply Qle_bool_false_iff; lra).
    rewrite H55, H75. destruct sa, st; reflexivity.
  - destruct st; try discriminate H.
    destruct sa; cbn; try reflexivity.
Qed.

Lemma combine_signals_weak_guardrail_witness :
  combine_signals (Some "bullish") (Some "Bearish") (Some (1 # 2)) = "Bullish".
Proof.
  rewrite (combine_signals_weak_guardrail (Some "bullish") (Some "Bearish") (1 # 2)).
  - reflexivity.
  - left. reflexivity.
Defined.

(** ** From fused signal and side label to the decision table *)

Lemma normalize_position_side_range (raw : option string) :
  exists pos, normalize_position_side raw = side_label pos.
Proof.
  unfold normalize_position_side.
  destruct raw as [s | ]; [ | now exists NoPosition ].
  destruct (PyStr.truthy (Some s)); cbn [negb]; [ | now exists NoPosition ].
  unfold side_mapping. cbn [first_prefix].
  repeat match goal with
         | |- context [ if PyStr.startswith ?u ?k then _ else _ ] =>
             destruct (PyStr.startswith u k);
             [ first [ now exists Long | now exists Short ] | ]
         end.
  now exists NoPosition.
Qed.

(** X5. Whatever the primary signal, the guardrail, the confidence and
    the raw side label are, the fused signal is one of Bullish, Bearish and
    Neutral and the normalised side one of None, "buy" and "sell": the pair
    the runner matches on always lies in the domain of the nine cases. *)
Theorem match_block_exhaustive
    (ai tech : option string) (conf : option Q) (raw : option string) :
  exists sig pos,
    combine_signals ai tech conf = signal_name sig /\
    normalize_position_side raw = side_label pos.
Proof.
  destruct (combine_signals_range ai tech conf) as [sig Hs].
  destruct (normalize_position_side_range raw) as [pos Hp].
  exists sig, pos. split; assumption.
Qed.

(** ** Position sizing and stop-loss *)

Ltac reflect_Q :=
  repeat match goal with
         | H : Qle_bool _ _ = true |- _ => apply Qle_bool_iff in H
         | H : Qle_bool _ _ = false |- _ => apply Qle_bool_false_iff in H
         | H : Qlt_bool _ _ = true |- _ => apply Qlt_bool_iff in H
         | H : Qlt_bool _ _ = false |- _ => apply Qlt_bool_false_iff in H
         | H : Qeq_bool _ _ = true |- _ => apply Qeq_bool_iff in H
         | H : Qeq_bool _ _ = false |- _ => apply Qeq_bool_neq in H
         end.

Lemma div_mult_cancel (x y : Q) : ~ y == 0 -> x / y * y == x.
Proof. intros Hy. rewrite Qmult_comm. apply Qmult_div_r. exact Hy. Qed.

Lemma div100 (x : Q) : x / 100 == x * (1 # 100).
Proof. reflexivity. Qed.

(** X6. A successful sizing never asks for more than the whole balance
    buys: with a non-negative balance and a positive price the quantity lies
    between 0 and [capital / price]. *)
Theorem position_size_within_capital (capital price : Q) (spec : size_spec) (qty : Q) :
  calculate_position_size capital price spec = Ok qty ->
  0 <= capital -> 0 < price ->
  0 <= qty /\ qty <= capital / price.
Proof.
  intros Hq Hcap Hprice.
  assert (Hinv : 0 <= / price) by (apply Qinv_le_0_compat; lra).
  assert (Hmono : forall x, 0 <= x -> x <= capital ->
                            0 <= x / price /\ x / price <= capital / price).
  { intros x H0 Hx. unfold Qdiv. split.
    - apply Qmult_le_0_compat; assumption.
    - apply Qmult_le_compat_r; assumption. }
  unfold calculate_position_size in Hq.
  destruct spec as [s | amount | ]; [ | | discriminate ].
  - destruct (PyStr.endswith_char s "%"); [ | discriminate ].
    destruct (PyNum.py_float (PyStr.rstrip_by is_percent s)) as [pct | ]; [ | discriminate ].
    destruct (Qlt_bool 0 pct) eqn:H0; destruct (Qle_bool pct 100) eqn:H100;
      cbn in Hq; try discriminate.
    destruct (Qeq_bool price 0); [ discriminate | ].
    injection Hq as <-. reflect_Q.
    apply Hmono; rewrite div100; nra.
  - destruct (Qle_bool amount 0) eqn:H0; [ discriminate | ].
    destruct (Qlt_bool capital amount) eqn:Hc; cbn in Hq; [ discriminate | ].
    destruct (Qeq_bool price 0); [ discriminate | ].
    injection Hq as <-. reflect_Q.
    apply Hmono; lra.
Qed.

Lemma position_size_within_capital_witness :
  exists qty,
    calculate_position_size 1000 50 (SpecStr "25%") = Ok qty /\
    0 <= qty /\ qty <= 1000 / 50.
Proof.
  eexists. split; [ reflexivity | ].
  apply (position_size_within_capital 1000 50 (SpecStr "25%") _ eq_refl); lra.
Defined.

(** X7. The stop-loss trigger of a long ("BUY") lies at or below the entry
    price and that of every other side label at or above it, for a
    non-negative entry price and percentage; the two triggers are symmetric
    around the entry.  Only the exact label "BUY" counts as long. *)
Theorem stop_loss_sides (entry_price sl_percent : Q) (side : string) :
  0 <= entry_price -> 0 <= sl_percent ->
  (side = "BUY" -> calculate_stop_loss_price entry_price side sl_percent <= entry_price) /\
  (side <> "BUY" -> entry_price <= calculate_stop_loss_price entry_price side sl_percent) /\
  calculate_stop_loss_price entry_price "BUY" sl_percent +
  calculate_stop_loss_price entry_price "buy" sl_percent == 2 * entry_price.
Proof.
  intros He Hp. unfold calculate_stop_loss_price.
  repeat split.
  - intros ->. cbn. rewrite div100. nra.
  - intros Hs. apply String.eqb_neq in Hs. rewrite Hs. rewrite div100. nra.
  - cbn. rewrite div100. nra.
Qed.

Lemma stop_loss_sides_witness :
  calculate_stop_loss_price 100 "BUY" 10 <= 100 /\
  100 <= calculate_stop_loss_price 100 "SELL" 10.
Proof.
  destruct (stop_loss_sides 100 10 "BUY") as (H1 & _ & _); [ lra | lra | ].
  destruct (stop_loss_sides 100 10 "SELL") as (_ & H2 & _); [ lra | lra | ].
  split; [ apply H1; reflexivity | apply H2; discriminate ].
Defined.

(** ** Volatility scaling *)



(** X9. The scale factor never grows with volatility: a larger ATR% gives
    the same or a smaller factor, and the factor is one of 0.5, 0.75, 1 and
    1.1. *)
Theorem volatility_scale_monotone (a b : Q) :
  a <= b ->
  volatility_scale b <= volatility_scale a /\
  5 # 10 <= volatility_scale a /\ volatility_scale a <= 11 # 10.
Proof.
  intros Hab. unfold volatility_scale.
  destruct (Qle_bool 4 a) eqn:?; destruct (Qle_bool 3 a) eqn:?;
    destruct (Qle_bool a 1) eqn:?;
    destruct (Qle_bool 4 b) eqn:?; destruct (Qle_bool 3 b) eqn:?;
    destruct (Qle_bool b 1) eqn:?;
    reflect_Q; repeat split; lra.
Qed.

Lemma volatility_scale_monotone_witness :
  volatility_scale (45 # 10) <= volatility_scale (1 # 2).
Proof.
  apply (volatility_scale_monotone (1 # 2) (45 # 10)). lra.
Defined.

(** X10. In a calm market (ATR% at most 1) the fixed amount is scaled up by
    1.1 without regard to the balance: every amount above capital / 1.1,
    including amounts the sizer accepts unscaled, makes the sizing of the
    scaled spec fail with a ValueError. *)
Theorem calm_market_scaling_overshoots (atr amount capital price : Q) :
  atr <= 1 ->
  capital < amount * (11 # 10) ->
  calculate_position_size capital price
    (_scale_position_size_spec (SpecNum amount) (volatility_scale atr)) = Raise ValueError.
Proof.
  intros Hatr Hover.
  assert (Hscale : volatility_scale atr = 11 # 10).
  { unfold volatility_scale.
    destruct (Qle_bool 4 atr) eqn:?; destruct (Qle_bool 3 atr) eqn:?;
      destruct (Qle_bool atr 1) eqn:?; reflect_Q; try reflexivity; lra. }
  rewrite Hscale.
  change (_scale_position_size_spec (SpecNum amount) (11 # 10))
    with (SpecNum (Qmax (1 # 100000000) (amount * (11 # 10)))).
  apply position_size_value_error. cbn. right.
  pose proof (Q.le_max_r (1 # 100000000) (amount * (11 # 10))). lra.
Qed.

Lemma calm_market_scaling_overshoots_witness :
  calculate_position_size 100 50 (SpecNum 100) = Ok (100 / 50) /\
  calculate_position_size 100 50
    (_scale_position_size_spec (SpecNum 100) (volatility_scale (1 # 2))) = Raise ValueError.
Proof.
  split; [ reflexivity | ].
  apply calm_market_scaling_overshoots; [ lra | reflexivity ].
Defined.

(** ** Opening a position *)

Lemma attach_stop_loss_never_raises {X : Type} (E : Exchange X)
    (symbol side : string) (stop_loss_percent : option Q) (w : world X) :
  fst (attach_stop_loss X E symbol side stop_loss_percent w) = Ok tt.
Proof.
  unfold attach_stop_loss.
  destruct stop_loss_percent as [pct | ]; [ | reflexivity ].
  destruct (place_position_tpsl E) as [tpsl | ]; [ | reflexivity ].
  unfold try_except, bind, do_get_pending_positions, perform, ret.
  destruct (get_pending_positions E symbol (fst w)) as [[[p | ] | e] x]; cbn;
    try reflexivity.
  destruct (tpsl symbol (positionId p)
              (calculate_stop_loss_price (avgOpenPrice p) side pct) x)
    as [[[] | e] x']; reflexivity.
Qed.

(** X11. Attaching the stop-loss is best effort: once the sizing and the
    market order have succeeded, [open_position] returns normally whatever
    the exchange answers to the position query or the stop-loss request. *)
Theorem open_position_stop_loss_best_effort {X : Type} (E : Exchange X)
    (symbol direction : string) (position_size : size_spec)
    (stop_loss_percent : option Q) (w w1 : world X) (qty : Q) (x2 : X) :
  sized_quantity X E symbol position_size w = (Ok qty, w1) ->
  place_order E {| o_symbol := symbol; o_qty := qty; o_side := PyStr.upper direction;
                   o_trade_side := "OPEN"; o_order_type := "MARKET" |} (fst w1)
    = (Ok tt, x2) ->
  fst (open_position E symbol direction position_size stop_loss_percent w) = Ok tt.
Proof.
  intros Hsize Horder.
  unfold open_position, bind at 1. rewrite Hsize.
  unfold bind at 1, do_place_order, perform. rewrite Horder.
  unfold bind.
  match goal with
  | |- context [ attach_stop_loss X E ?s ?d ?p ?w' ] =>
      pose proof (attach_stop_loss_never_raises E s d p w') as Hattach;
      destruct (attach_stop_loss X E s d p w') as [[[] | e] w3]
  end; cbn in *; [ reflexivity | discriminate ].
Qed.

Lemma open_position_stop_loss_best_effort_witness :
  fst (open_position tpsl_failing_exchange "BTCUSDT" "buy" (SpecNum 20) (Some 10) (tt, []))
    = Ok tt.
Proof.
  apply (open_position_stop_loss_best_effort tpsl_failing_exchange "BTCUSDT" "buy"
           (SpecNum 20) (Some 10) (tt, [])
           (tt, [GetAccountBalance "USDT"; GetCurrentPrice "BTCUSDT"]) (20 / 50) tt);
    reflexivity.
Defined.

(** X12. When the sizing fails, whether on an exchange read or on the
    validation of the spec, [open_position] raises the same exception and
    places no order. *)
Theorem open_position_sizing_failure {X : Type} (E : Exchange X)
    (symbol direction : string) (position_size : size_spec)
    (stop_loss_percent : option Q) (w w1 : world X) (e : exn) :
  sized_quantity X E symbol position_size w = (Raise e, w1) ->
  open_position E symbol direction position_size stop_loss_percent w = (Raise e, w1) /\
  filter is_place_order (snd w1) = filter is_place_order (snd w).
Proof.
  intros Hsize. split.
  - unfold open_position, bind at 1. now rewrite Hsize.
  - revert Hsize.
    unfold sized_quantity, bind, do_get_account_balance, do_get_current_price,
      perform, lift.
    destruct (get_account_balance E "USDT" (fst w)) as [[capital | e1] x1]; cbn.
    + destruct (get_current_price E symbol x1) as [[price | e2] x2]; cbn;
        intros H; injection H as _ <-; cbn;
        rewrite <- app_assoc, filter_app; cbn; apply app_nil_r.
    + intros H; injection H as _ <-; cbn.
      rewrite filter_app; cbn; apply app_nil_r.
Qed.

Lemma open_position_sizing_failure_witness :
  open_position paper_exchange "BTCUSDT" "buy" (SpecNum 20) (Some 10) (false, []) =
  (Raise ValueError, (false, [GetAccountBalance "USDT"; GetCurrentPrice "BTCUSDT"])).
Proof.
  apply (open_position_sizing_failure paper_exchange "BTCUSDT" "buy" (SpecNum 20)
           (Some 10) (false, [])).
  reflexivity.
Defined.

(** ** The emergency handler and the trading block *)

(** X13. The emergency handler never raises: it returns normally for every
    exchange and state, after the re-query alone or after the re-query and
    one flash-close call. *)
Theorem emergency_close_never_raises {X : Type} (E : Exchange X) (w : world X) :
  fst (emergency_close E w) = Ok tt /\
  (snd (snd (emergency_close E w)) = (snd w ++ [GetPendingPositions SYMBOL])%list \/
   exists pid,
     snd (snd (emergency_close E w)) =
     (snd w ++ [GetPendingPositions SYMBOL; FlashClosePosition pid])%list).
Proof.
  unfold emergency_close, try_except, bind, do_get_pending_positions,
    do_flash_close_position, perform, ret.
  destruct (get_pending_positions E SYMBOL (fst w)) as [[[p | ] | e] x]; cbn;
    try (split; [ reflexivity | left; reflexivity ]).
  destruct (flash_close_position E (positionId p) x) as [[[] | e] x']; cbn;
    (split; [ reflexivity | right; exists (positionId p); now rewrite <- app_assoc ]).
Qed.

(** X14. In a flip the opposite position is opened only after a successful
    close: when the flash-close of the existing position raises, the match
    statement stops with that exception and has issued the close call and
    nothing else. *)
Theorem flip_stops_on_failed_close {X : Type} (E : Exchange X) (p : Position)
    (position_size_spec : size_spec) (w : world X) (e : exn) (x' : X) :
  flash_close_position E (positionId p) (fst w) = (Raise e, x') ->
  match_block E "Bullish" (Some "sell") (Some p) position_size_spec w =
    (Raise e, (x', (snd w ++ [FlashClosePosition (positionId p)])%list)) /\
  match_block E "Bearish" (Some "buy") (Some p) position_size_spec w =
    (Raise e, (x', (snd w ++ [FlashClosePosition (positionId p)])%list)).
Proof.
  intros H.
  split; cbn; unfold bind, ret, do_flash_close_position, perform; cbn; now rewrite H.
Qed.

Lemma flip_stops_on_failed_close_witness :
  match_block stuck_exchange "Bearish" (Some "buy") (Some long_position) (SpecNum 20) (tt, [])
  = (Raise ExchangeFailure, (tt, [FlashClosePosition "p-1"])).
Proof.
  apply (flip_stops_on_failed_close stuck_exchange long_position (SpecNum 20) (tt, [])
           ExchangeFailure tt).
  reflexivity.
Defined.

Section TraceGrowth.

Context {X : Type} (E : Exchange X).

Lemma appends_only_ret {A : Type} (a : A) : appends_only (@ret X A a).
Proof. intros w. exists []. cbn. now rewrite app_nil_r. Qed.

Lemma appends_only_raise {A : Type} (e : exn) : appends_only (@raise X A e).
Proof. intros w. exists []. cbn. now rewrite app_nil_r. Qed.

Lemma appends_only_lift {A : Type} (r : result A) : appends_only (@lift X A r).
Proof. intros w. exists []. cbn. now rewrite app_nil_r. Qed.

Lemma appends_only_perform {A : Type} (c : call) (op : X -> result A * X) :
  appends_only (perform X c op).
Proof.
  intros w. exists [c]. unfold perform. destruct (op (fst w)) as [r x]. reflexivity.
Qed.

Lemma appends_only_bind {A B : Type} (m : M X A) (k : A -> M X B) :
  appends_only m -> (forall a, appends_only (k a)) -> appends_only (bind X m k).
Proof.
  intros Hm Hk w. unfold bind.
  destruct (Hm w) as [t Ht].
  destruct (m w) as [[a | e] w1]; cbn in *.
  - destruct (Hk a w1) as [t' Ht']. exists (t ++ t')%list.
    now rewrite Ht', Ht, app_assoc.
  - now exists t.
Qed.

Lemma appends_only_try_except {A : Type} (m : M X A) (h : exn -> M X A) :
  appends_only m -> (forall e, appends_only (h e)) -> appends_only (try_except X m h).
Proof.
  intros Hm Hh w. unfold try_except.
  destruct (Hm w) as [t Ht].
  destruct (m w) as [[a | e] w1]; cbn in *.
  - now exists t.
  - destruct (Hh e w1) as [t' Ht']. exists (t ++ t')%list.
    now rewrite Ht', Ht, app_assoc.
Qed.

Lemma appends_only_attach_stop_loss (symbol side : string) (pct : option Q) :
  appends_only (attach_stop_loss X E symbol side pct).
Proof.
  unfold attach_stop_loss.
  destruct pct as [pct | ]; [ | apply appends_only_ret ].
  destruct (place_position_tpsl E) as [tpsl | ]; [ | apply appends_only_ret ].
  apply appends_only_try_except; [ | intros; apply appends_only_ret ].
  apply appends_only_bind; [ apply appends_only_perform | ].
  intros [p | ]; [ apply appends_only_perform | apply appends_only_ret ].
Qed.

Lemma appends_only_open_position (symbol direction : string) (spec : size_spec)
    (pct : option Q) :
  appends_only (open_position E symbol direction spec pct).
Proof.
  unfold open_position, sized_quantity.
  repeat first
    [ apply appends_only_bind; [ | intros ]
    | apply appends_only_perform
    | apply appends_only_lift
    | apply appends_only_ret
    | apply appends_only_attach_stop_loss ].
Qed.

Lemma appends_only_close (position : option Position) :
  appends_only (bind X (@position_id_of X position)
                  (fun pid => do_flash_close_position E pid)).
Proof.
  apply appends_only_bind; [ | intros; apply appends_only_perform ].
  destruct position; [ apply appends_only_ret | apply appends_only_raise ].
Qed.

Lemma appends_only_perform_action (a : TradeAction) (position : option Position)
    (spec : size_spec) :
  appends_only (perform_action E a position spec).
Proof.
  destruct a; cbn [perform_action];
    try apply appends_only_open_position;
    try apply appends_only_ret;
    try apply appends_only_close.
  - apply appends_only_bind;
      [ destruct position; [ apply appends_only_ret | apply appends_only_raise ] | intros pid ].
    apply appends_only_bind; [ apply appends_only_perform | intros ].
    apply appends_only_open_position.
  - apply appends_only_bind;
      [ destruct position; [ apply appends_only_ret | apply appends_only_raise ] | intros pid ].
    apply appends_only_bind; [ apply appends_only_perform | intros ].
    apply appends_only_open_position.
  - unfold emergency_close.
    apply appends_only_try_except; [ | intros; apply appends_only_ret ].
    apply appends_only_bind; [ apply appends_only_perform | ].
    intros [p | ]; [ apply appends_only_perform | apply appends_only_ret ].
Qed.

Lemma appends_only_match_block (interpretation : string) (current_position : option string)
    (position : option Position) (spec : size_spec) :
  appends_only (match_block E interpretation current_position position spec).
Proof.
  unfold match_block.
  repeat match goal with
         | |- appends_only (if ?c then _ else _) => destruct c
         end;
    first [ apply appends_only_ret
          | apply appends_only_open_position
          | apply appends_only_close
          | apply (appends_only_perform_action FlipToLong)
          | apply (appends_only_perform_action FlipToShort) ].
Qed.

End TraceGrowth.

(** X15. No order and no close is issued before the preparation is done:
    either the trading block raises during the four preparatory calls
    (position query, balance, margin mode, leverage), having issued only a
    prefix of them, or its trace is those four calls, in that order,
    followed by the calls of the decision. *)
Theorem trading_block_prepares_first {X : Type} (E : Exchange X)
    (interpretation : string) (position_size_spec : size_spec) (w : world X) :
  (exists k e,
      (1 <= k <= 4)%nat /\
      fst (trading_block E interpretation position_size_spec w) = Raise e /\
      snd (snd (trading_block E interpretation position_size_spec w)) =
        (snd w ++ firstn k preparatory_calls)%list) \/
  (exists t,
      snd (snd (trading_block E interpretation position_size_spec w)) =
        (snd w ++ preparatory_calls ++ t)%list).
Proof.
  unfold trading_block, bind, do_get_pending_positions, do_get_account_balance,
    do_set_margin_mode, do_set_leverage, perform.
  destruct w as [x0 t0]. cbn [fst snd].
  destruct (get_pending_positions E SYMBOL x0) as [[position | e] x1]; cbn [fst snd];
    [ | left; exists 1%nat, e; repeat split; lia ].
  destruct (get_account_balance E "USDT" x1) as [[balance | e] x2]; cbn [fst snd];
    [ | left; exists 2%nat, e; repeat split; try lia; cbn; now rewrite <- app_assoc ].
  destruct (set_margin_mode E SYMBOL MARGIN_MODE x2) as [[[] | e] x3]; cbn [fst snd];
    [ | left; exists 3%nat, e; repeat split; try lia; cbn; now rewrite <- !app_assoc ].
  destruct (set_leverage E SYMBOL LEVERAGE x3) as [[[] | e] x4]; cbn [fst snd];
    [ | left; exists 4%nat, e; repeat split; try lia; cbn; now rewrite <- !app_assoc ].
  right.
  match goal with
  | |- context [ match_block E ?i ?c ?p ?s ?w' ] =>
      destruct (appends_only_match_block E i c p s w') as [t Ht]; exists t; rewrite Ht
  end.
  cbn. now rewrite <- !app_assoc.
Qed.

(** ** Percent change and intervals *)

Lemma iloc_negative {A : Type} (s : list A) (i : Z) (x : A) :
  (- Z.of_nat (length s) <= i < 0)%Z ->
  nth_error s (Z.to_nat (Z.of_nat (length s) + i)) = Some x ->
  Pandas.iloc s i = Ok x.
Proof.
  intros Hi Hx. unfold Pandas.iloc.
  assert (Hneg : (i <? 0)%Z = true) by (apply Z.ltb_lt; lia).
  assert (Hlo : (Z.of_nat (length s) + i <? 0)%Z = false) by (apply Z.ltb_ge; lia).
  assert (Hhi : (Z.of_nat (length s) <=? Z.of_nat (length s) + i)%Z = false)
    by (apply Z.leb_gt; lia).
  rewrite Hneg, Hlo, Hhi. cbn. now rewrite Hx.
Qed.

(** X16. With enough history and a non-zero base, the change over N bars is
    [(latest - base) / base] where [base] is the value N bars before the
    last one: the values older than the base and those between base and
    latest play no part. *)
Theorem period_pct_change_value (older between : list Q) (base latest : Q) :
  ~ base == 0 ->
  _period_pct_change (older ++ base :: between ++ [latest])
                     (Z.of_nat (S (length between)))
  = Ok ((latest - base) / base).
Proof.
  intros Hbase. unfold _period_pct_change.
  set (s := (older ++ base :: between ++ [latest])%list).
  assert (Hlen : length s = (length older + S (length between + 1))%nat).
  { unfold s. rewrite length_app. cbn [length]. now rewrite length_app. }
  assert (Hguard : ((Z.of_nat (length s) <=? Z.of_nat (S (length between)))
                    || (Z.of_nat (S (length between)) <=? 0))%Z = false).
  { apply orb_false_iff. split; apply Z.leb_gt; lia. }
  rewrite Hguard.
  rewrite (iloc_negative s (-1) latest).
  - rewrite (iloc_negative s (- Z.of_nat (S (length between)) - 1) base).
    + cbn [rbind].
      destruct (Qeq_bool base 0) eqn:E; [ | reflexivity ].
      apply Qeq_bool_iff in E. contradiction.
    + lia.
    + replace (Z.to_nat (Z.of_nat (length s) + (- Z.of_nat (S (length between)) - 1)))
        with (length older + 0)%nat by lia.
      unfold s. now rewrite nth_error_app2, Nat.add_comm, Nat.add_sub by lia.
  - lia.
  - replace (Z.to_nat (Z.of_nat (length s) + -1))
      with (length older + S (length between))%nat by lia.
    unfold s. rewrite nth_error_app2 by lia.
    replace (length older + S (length between) - length older)%nat
      with (S (length between)) by lia.
    cbn [nth_error]. rewrite nth_error_app2 by lia.
    now rewrite Nat.sub_diag.
Qed.

Lemma period_pct_change_value_witness :
  _period_pct_change [7; 100; 3; 110] 2 = Ok ((110 - 100) / 100).
Proof.
  apply (period_pct_change_value [7] [3] 100 110). discriminate.
Defined.

Lemma last_char_snoc (s : string) (c : ascii) :
  PyStr.last_char (s ++ String c EmptyString) = Some c.
Proof.
  induction s as [ | d r IH ]; [ reflexivity | ].
  cbn [append PyStr.last_char]. rewrite IH.
  destruct (r ++ String c EmptyString) eqn:E; [ | reflexivity ].
  destruct r; discriminate.
Qed.

Lemma drop_last_snoc (s : string) (c : ascii) :
  PyStr.drop_last (s ++ String c EmptyString) = s.
Proof.
  induction s as [ | d r IH ]; [ reflexivity | ].
  cbn [append PyStr.drop_last]. rewrite IH.
  destruct (r ++ String c EmptyString) eqn:E; [ | reflexivity ].
  destruct r; discriminate.
Qed.

(** X17. An interval is its integer part times the unit: minutes for "m",
    60 for "h", 1440 for "d", with a ValueError when the part before the
    unit is not an integer literal.  Every other final character, "w" and
    the upper-case letters included, gives a ValueError, and the empty
    string an IndexError. *)
Theorem interval_to_minutes_units (value : string) :
  _interval_to_minutes (value ++ "m") =
    match PyNum.py_int value with Some n => Ok n | None => Raise ValueError end /\
  _interval_to_minutes (value ++ "h") =
    match PyNum.py_int value with Some n => Ok (n * 60)%Z | None => Raise ValueError end /\
  _interval_to_minutes (value ++ "d") =
    match PyNum.py_int value with Some n => Ok (n * 1440)%Z | None => Raise ValueError end /\
  _interval_to_minutes EmptyString = Raise IndexError /\
  (forall unit : ascii,
      unit <> "m"%char -> unit <> "h"%char -> unit <> "d"%char ->
      _interval_to_minutes (value ++ String unit EmptyString) = Raise ValueError).
Proof.
  unfold _interval_to_minutes.
  repeat split.
  - rewrite last_char_snoc, drop_last_snoc.
    destruct (PyNum.py_int value); [ cbn; now rewrite Z.mul_1_r | reflexivity ].
  - rewrite last_char_snoc, drop_last_snoc.
    destruct (PyNum.py_int value); reflexivity.
  - rewrite last_char_snoc, drop_last_snoc.
    destruct (PyNum.py_int value); reflexivity.
  - intros unit Hm Hh Hd.
    rewrite last_char_snoc, drop_last_snoc.
    destruct (PyNum.py_int value); [ | reflexivity ].
    unfold multipliers. cbn [lookup_unit].
    apply Ascii.eqb_neq in Hm, Hh, Hd.
    now rewrite Hm, Hh, Hd.
Qed.

Lemma interval_to_minutes_units_witness :
  _interval_to_minutes "1w" = Raise ValueError.
Proof.
  destruct (interval_to_minutes_units "1") as (_ & _ & _ & _ & H).
  apply (H "w"%char); discriminate.
Defined.

Lemma period_pct_change_nil (bars : Z) : _period_pct_change [] bars = Ok 0.
Proof.
  unfold _period_pct_change. cbn [length Z.of_nat].
  destruct (0 <=? bars)%Z eqn:E; [ reflexivity | ].
  apply Z.leb_gt in E.
  assert (H : (bars <=? 0)%Z = true) by (apply Z.leb_le; lia).
  now rewrite H.
Qed.

(** X18. [build_snapshot] has no fallback for its inputs: an exception of
    the interval conversion is passed on, an interval of zero minutes raises
    a ZeroDivisionError, and an empty candle frame raises an IndexError. *)
Theorem build_snapshot_input_errors (fsqrt : Q -> Q) (sym interval : string)
    (klines : list Candle) :
  (forall e, _interval_to_minutes interval = Raise e ->
             build_snapshot fsqrt sym interval klines = Raise e) /\
  (_interval_to_minutes interval = Ok 0%Z ->
   build_snapshot fsqrt sym interval klines = Raise ZeroDivisionError) /\
  (forall minutes, _interval_to_minutes interval = Ok minutes -> minutes <> 0%Z ->
                   build_snapshot fsqrt sym interval [] = Raise IndexError).
Proof.
  unfold build_snapshot, period_bars.
  repeat split.
  - intros e ->. reflexivity.
  - intros ->. reflexivity.
  - intros minutes -> Hm. apply Z.eqb_neq in Hm. cbn [rbind]. rewrite Hm.
    cbn [rbind map]. rewrite !period_pct_change_nil. reflexivity.
Qed.

Lemma build_snapshot_input_errors_witness :
  build_snapshot (fun x => x) "BTCUSDT" "0m" two_candles = Raise ZeroDivisionError /\
  build_snapshot (fun x => x) "BTCUSDT" "15m" [] = Raise IndexError /\
  build_snapshot (fun x => x) "BTCUSDT" "15" two_candles = Raise ValueError.
Proof.
  split; [ | split ].
  - apply (proj1 (proj2 (build_snapshot_input_errors (fun x => x) "BTCUSDT" "0m" two_candles))).
    reflexivity.
  - apply (proj2 (proj2 (build_snapshot_input_errors (fun x => x) "BTCUSDT" "15m" [])) 15%Z);
      [ reflexivity | discriminate ].
  - apply (proj1 (build_snapshot_input_errors (fun x => x) "BTCUSDT" "15" two_candles)).
    reflexivity.
Defined.

(** ** The snapshot with enough history *)

Lemma build_snapshot_components (fsqrt : Q -> Q) (sym interval : string)
    (klines : list Candle) (minutes : Z) :
  _interval_to_minutes interval = Ok minutes ->
  (0 < minutes)%Z ->
  (0 < length klines)%nat ->
  exists c24 c4 m1 r m20 lc m60 atr vol,
    _calculate_rsi (map c_close klines) 14 = Ok r /\
    Pandas.iloc_last (Pandas.rolling 20 Pandas.mean (Pandas.of_floats (map c_close klines)))
      = Ok m20 /\
    Pandas.iloc_last (map c_close klines) = Ok lc /\
    Pandas.iloc_last (Pandas.rolling 60 Pandas.mean (Pandas.of_floats (map c_close klines)))
      = Ok m60 /\
    _calculate_atr (map c_high klines) (map c_low klines) (map c_close klines) 14 = Ok atr /\
    build_snapshot fsqrt sym interval klines =
    Ok {| symbol := sym;
          interval := interval;
          latest_close := lc;
          change_24h := c24;
          change_4h := c4;
          momentum_1h := m1;
          rsi := r;
          sma_fast := _safe_value m20 lc;
          sma_slow := _safe_value m60 lc;
          atr_pct := if Qeq_bool lc 0 then 0 else atr / lc * 100;
          volume_24h :=
            Pandas.qsum (Pandas.iloc_from (map c_volume klines) (- (1440 / minutes)));
          volatility_24h := _safe_value vol 0 |}.
Proof.
  intros Hm Hmin Hpos.
  assert (Hc : length (map c_close klines) = length klines) by apply length_map.
  assert (Hh : length (map c_high klines) = length (map c_close klines))
    by now rewrite !length_map.
  assert (Hl : length (map c_low klines) = length (map c_close klines))
    by now rewrite !length_map.
  assert (Hb : (0 <= 1440 / minutes)%Z) by (apply Z.div_pos; lia).
  unfold build_snapshot.
  rewrite (period_bars_floor (24 * 60) interval minutes Hm Hmin) by lia.
  rewrite (period_bars_floor (4 * 60) interval minutes Hm Hmin) by lia.
  rewrite (period_bars_floor 60 interval minutes Hm Hmin) by lia.
  change (24 * 60)%Z with 1440%Z. change (4 * 60)%Z with 240%Z.
  cbn [rbind].
  destruct (period_pct_change_total (map c_close klines) (1440 / minutes)) as [c24 H24].
  destruct (period_pct_change_total (map c_close klines) (240 / minutes)) as [c4 H4].
  destruct (period_pct_change_total (map c_close klines) (Z.max 1 (60 / minutes)))
    as [m1 H1].
  rewrite H24, H4, H1. cbn [rbind].
  destruct (calculate_rsi_total (map c_close klines) 14) as [r Hr]; [ lia | ].
  destruct (iloc_last_total
              (Pandas.rolling 20 Pandas.mean (Pandas.of_floats (map c_close klines))))
    as [m20 H20];
    [ rewrite length_rolling, length_of_floats; lia | ].
  destruct (iloc_last_total (map c_close klines)) as [lc Hlc]; [ lia | ].
  destruct (iloc_last_total
              (Pandas.rolling 60 Pandas.mean (Pandas.of_floats (map c_close klines))))
    as [m60 H60];
    [ rewrite length_rolling, length_of_floats; lia | ].
  destruct (calculate_atr_total (map c_high klines) (map c_low klines)
              (map c_close klines) 14 Hh Hl) as [atr Hatr]; [ lia | ].
  assert (Hnn : (1440 / minutes <? 0)%Z = false) by (apply Z.ltb_ge; exact Hb).
  destruct (iloc_last_total
              (Pandas.rolling (Z.to_nat (1440 / minutes)) (std fsqrt)
                 (Pandas.pct_change (Pandas.of_floats (map c_close klines)))))
    as [vol Hvol];
    [ rewrite length_rolling, length_pct_change, length_of_floats; lia | ].
  exists c24, c4, m1, r, m20, lc, m60, atr, vol.
  repeat (split; [ assumption | ]).
  rewrite Hr. cbn [rbind]. rewrite H20. cbn [rbind]. rewrite Hlc. cbn [rbind].
  rewrite H60. cbn [rbind]. rewrite Hatr. cbn [rbind].
  unfold rolling_std_last. rewrite Hnn, Hvol. reflexivity.
Qed.

Lemma valid_of_floats (l : list Q) : Pandas.valid (Pandas.of_floats l) = l.
Proof.
  induction l as [ | x l IH ]; [ reflexivity | ].
  cbn. unfold Pandas.valid, Pandas.of_floats in IH. now rewrite IH.
Qed.

Lemma rolling_mean_last (w : nat) (l : list Q) :
  (0 < w)%nat -> (w <= length l)%nat ->
  Pandas.iloc_last (Pandas.rolling w Pandas.mean (Pandas.of_floats l)) =
  Ok (Some (Pandas.qsum (skipn (length l - w) l) / inject_Z (Z.of_nat w))).
Proof.
  intros Hw Hl.
  rewrite (iloc_last_nth _ None)
    by (rewrite length_rolling, length_of_floats; lia).
  rewrite length_rolling, length_of_floats.
  rewrite nth_rolling by (rewrite length_of_floats; lia). cbv zeta.
  unfold Pandas.window_at.
  replace (S (length l - 1)) with (length (Pandas.of_floats l))
    by (rewrite length_of_floats; lia).
  rewrite firstn_all, length_of_floats.
  unfold Pandas.of_floats at 1 2. rewrite skipn_map.
  fold (Pandas.of_floats (skipn (length l - w) l)).
  rewrite valid_of_floats.
  assert (Hk : length (skipn (length l - w) l) = w) by (rewrite length_skipn; lia).
  rewrite Hk, Nat.ltb_irrefl.
  unfold Pandas.mean.
  destruct (skipn (length l - w) l) as [ | x r ] eqn:E; [ cbn in Hk; lia | ].
  now rewrite Hk.
Qed.

(** X19. With at least 20 (resp. 60) candles the fast (resp. slow) moving
    average of the snapshot is the arithmetic mean of the last 20 (resp. 60)
    closes. *)
Theorem sma_is_mean_of_last_closes (fsqrt : Q -> Q) (sym interval : string)
    (klines : list Candle) (minutes : Z) :
  _interval_to_minutes interval = Ok minutes ->
  (0 < minutes)%Z ->
  (0 < length klines)%nat ->
  exists snap,
    build_snapshot fsqrt sym interval klines = Ok snap /\
    ((20 <= length klines)%nat ->
     sma_fast snap =
     Pandas.qsum (skipn (length klines - 20) (map c_close klines)) / 20) /\
    ((60 <= length klines)%nat ->
     sma_slow snap =
     Pandas.qsum (skipn (length klines - 60) (map c_close klines)) / 60).
Proof.
  intros Hm Hmin Hpos.
  destruct (build_snapshot_components fsqrt sym interval klines minutes Hm Hmin Hpos)
    as (c24 & c4 & m1 & r & m20 & lc & m60 & atr & vol & _ & H20 & _ & H60 & _ & Hsnap).
  eexists. split; [ exact Hsnap | ].
  cbn [sma_fast sma_slow].
  split; intros Hn.
  - rewrite rolling_mean_last in H20 by (rewrite ?length_map; lia).
    injection H20 as <-. now rewrite length_map.
  - rewrite rolling_mean_last in H60 by (rewrite ?length_map; lia).
    injection H60 as <-. now rewrite length_map.
Qed.

(** X20. The 24h volume is the sum of the volumes of the last
    [1440 / minutes] candles; when the interval is longer than a day that
    count is 0 and the sum runs over the whole frame instead of being empty. *)
Theorem volume_24h_window (fsqrt : Q -> Q) (sym interval : string)
    (klines : list Candle) (minutes : Z) :
  _interval_to_minutes interval = Ok minutes ->
  (0 < minutes)%Z ->
  (0 < length klines)%nat ->
  exists snap,
    build_snapshot fsqrt sym interval klines = Ok snap /\
    ((minutes <= 1440)%Z ->
     volume_24h snap =
     Pandas.qsum (skipn (length klines - Z.to_nat (1440 / minutes)) (map c_volume klines))) /\
    ((1440 < minutes)%Z -> volume_24h snap = Pandas.qsum (map c_volume klines)).
Proof.
  intros Hm Hmin Hpos.
  destruct (build_snapshot_components fsqrt sym interval klines minutes Hm Hmin Hpos)
    as (c24 & c4 & m1 & r & m20 & lc & m60 & atr & vol & _ & _ & _ & _ & _ & Hsnap).
  eexists. split; [ exact Hsnap | ].
  cbn [volume_24h]. unfold Pandas.iloc_from. rewrite length_map.
  split; intros Hday.
  - assert (Hb : (0 < 1440 / minutes)%Z) by (apply Z.div_str_pos; lia).
    assert (Hneg : (- (1440 / minutes) <? 0)%Z = true) by (apply Z.ltb_lt; lia).
    rewrite Hneg. f_equal. f_equal. lia.
  - rewrite Z.div_small by lia.
    change (- 0)%Z with 0%Z. change (0 <? 0)%Z with false. cbv iota.
    rewrite Z.min_l by lia. reflexivity.
Qed.


Lemma sma_is_mean_of_last_closes_witness :
  exists snap,
    build_snapshot (fun x => x) "BTCUSDT" "1h" sixty_candles = Ok snap /\
    sma_fast snap == 10 /\ sma_slow snap == 10.
Proof.
  destruct (sma_is_mean_of_last_closes (fun x => x) "BTCUSDT" "1h" sixty_candles 60)
    as (snap & Hsnap & H20 & H60).
  - reflexivity.
  - lia.
  - cbn; lia.
  - exists snap. split; [ exact Hsnap | ].
    rewrite H20, H60 by (cbn; lia).
    split; vm_compute; reflexivity.
Defined.

Lemma volume_24h_window_witness :
  (exists snap,
      build_snapshot (fun x => x) "BTCUSDT" "12h" sixty_candles = Ok snap /\
      volume_24h snap == 2) /\
  (exists snap,
      build_snapshot (fun x => x) "BTCUSDT" "3d" sixty_candles = Ok snap /\
      volume_24h snap == 60).
Proof.
  split.
  - destruct (volume_24h_window (fun x => x) "BTCUSDT" "12h" sixty_candles 720)
      as (snap & Hsnap & Hday & _); [ reflexivity | lia | cbn; lia | ].
    exists snap. split; [ exact Hsnap | ].
    rewrite Hday by lia. vm_compute. reflexivity.
  - destruct (volume_24h_window (fun x => x) "BTCUSDT" "3d" sixty_candles 4320)
      as (snap & Hsnap & _ & Hlong); [ reflexivity | lia | cbn; lia | ].
    exists snap. split; [ exact Hsnap | ].
    rewrite Hlong by lia. vm_compute. reflexivity.
Defined.

(** ** The scorer and the trend *)

Lemma score_when_below_trend (s : MarketSnapshot) :
  latest_close s <= sma_slow s -> sma_fast s <= sma_slow s ->
  fst (score_and_parts s) <= 0 /\
  (rsi s < 55 -> fst (score_and_parts s) <= - (2 # 10)).
Proof.
  intros Hclose Hfast.
  unfold score_and_parts.
  assert (Hweak : Qle_bool (rsi s) 45 = true ->
                  0 <= Qmin (2 # 10) ((45 - rsi s) / 100)).
  { intros H. apply Qle_bool_iff in H. apply capped_bias_bounds.
    apply div100_nonneg. lra. }
  pose proof (Q.le_min_l (2 # 10) ((rsi s - 55) / 100)) as Hstrong.
  set (strong := Qmin (2 # 10) ((rsi s - 55) / 100)) in *.
  set (weak := Qmin (2 # 10) ((45 - rsi s) / 100)) in *.
  assert (Ht : Qlt_bool (sma_slow s) (latest_close s) = false)
    by (apply Qlt_bool_false_iff; exact Hclose).
  assert (Hc : Qlt_bool (sma_slow s) (sma_fast s) = false)
    by (apply Qlt_bool_false_iff; exact Hfast).
  rewrite Ht, Hc.
  (split_threshold (Qle_bool 55 (rsi s));
   [ | split_threshold (Qle_bool (rsi s) 45); [ pose proof (Hweak eq_refl) | ] ]);
  (split_threshold (Qle_bool (2 # 1000) (momentum_1h s));
   [ | split_threshold (Qle_bool (momentum_1h s) (- (2 # 1000))) ]);
  (split_threshold (Qle_bool (5 # 1000) (change_24h s));
   [ | split_threshold (Qle_bool (change_24h s) (- (5 # 1000))) ]);
  cbn [fst]; reflect_Q; (split; [ lra | intros Hr; lra ]).
Qed.

Lemma score_when_above_trend (s : MarketSnapshot) :
  sma_slow s < latest_close s -> sma_slow s < sma_fast s ->
  0 <= fst (score_and_parts s) /\
  (45 < rsi s -> 2 # 10 <= fst (score_and_parts s)).
Proof.
  intros Hclose Hfast.
  unfold score_and_parts.
  assert (Hstrong : Qle_bool 55 (rsi s) = true ->
                    0 <= Qmin (2 # 10) ((rsi s - 55) / 100)).
  { intros H. apply Qle_bool_iff in H. apply capped_bias_bounds.
    apply div100_nonneg. lra. }
  pose proof (Q.le_min_l (2 # 10) ((45 - rsi s) / 100)) as Hweak.
  set (strong := Qmin (2 # 10) ((rsi s - 55) / 100)) in *.
  set (weak := Qmin (2 # 10) ((45 - rsi s) / 100)) in *.
  assert (Ht : Qlt_bool (sma_slow s) (latest_close s) = true)
    by (apply Qlt_bool_iff; exact Hclose).
  assert (Hc : Qlt_bool (sma_slow s) (sma_fast s) = true)
    by (apply Qlt_bool_iff; exact Hfast).
  rewrite Ht, Hc.
  (split_threshold (Qle_bool 55 (rsi s));
   [ pose proof (Hstrong eq_refl) | split_threshold (Qle_bool (rsi s) 45) ]);
  (split_threshold (Qle_bool (2 # 1000) (momentum_1h s));
   [ | split_threshold (Qle_bool (momentum_1h s) (- (2 # 1000))) ]);
  (split_threshold (Qle_bool (5 # 1000) (change_24h s));
   [ | split_threshold (Qle_bool (change_24h s) (- (5 # 1000))) ]);
  cbn [fst]; reflect_Q; (split; [ lra | intros Hr; lra ]).
Qed.

Lemma derive_signal_of_score (s : MarketSnapshot) :
  signal (derive_signal s) =
  (if Qlt_bool (15 # 100) (fst (score_and_parts s)) then "Bullish"
   else if Qlt_bool (fst (score_and_parts s)) (- (15 # 100)) then "Bearish"
   else "Neutral").
Proof.
  unfold derive_signal. destruct (score_and_parts s) as [score parts]. reflexivity.
Qed.

Lemma confidence_of_strong_score (s : MarketSnapshot) :
  2 # 10 <= Qabs (fst (score_and_parts s)) -> 75 # 100 <= confidence (derive_signal s).
Proof.
  intros H. rewrite derive_signal_confidence.
  eapply Qle_trans; [ | apply Q.le_max_r ].
  apply Q.min_glb; lra.
Qed.

Lemma bearish_when_below_trend (s : MarketSnapshot) :
  latest_close s <= sma_slow s -> sma_fast s <= sma_slow s -> rsi s < 55 ->
  signal (derive_signal s) = "Bearish" /\ 75 # 100 <= confidence (derive_signal s).
Proof.
  intros Hclose Hfast Hrsi.
  destruct (score_when_below_trend s Hclose Hfast) as [_ Hscore].
  specialize (Hscore Hrsi).
  split.
  - rewrite derive_signal_of_score.
    destruct (Qlt_bool (15 # 100) (fst (score_and_parts s))) eqn:E1; reflect_Q; [ lra | ].
    destruct (Qlt_bool (fst (score_and_parts s)) (- (15 # 100))) eqn:E2; reflect_Q;
      [ reflexivity | lra ].
  - apply confidence_of_strong_score.
    rewrite Qabs_neg by lra. lra.
Qed.

(** X21. The signal follows the moving-average structure.  With the close
    and SMA20 both at or below SMA60 the signal is never Bullish, and it is
    Bearish with confidence at least 0.75 unless RSI is 55 or more; with
    both above SMA60 it is never Bearish, and it is Bullish with confidence
    at least 0.75 unless RSI is 45 or less. *)
Theorem derive_signal_follows_trend (s : MarketSnapshot) :
  (latest_close s <= sma_slow s -> sma_fast s <= sma_slow s ->
   signal (derive_signal s) <> "Bullish" /\
   (rsi s < 55 ->
    signal (derive_signal s) = "Bearish" /\ 75 # 100 <= confidence (derive_signal s))) /\
  (sma_slow s < latest_close s -> sma_slow s < sma_fast s ->
   signal (derive_signal s) <> "Bearish" /\
   (45 < rsi s ->
    signal (derive_signal s) = "Bullish" /\ 75 # 100 <= confidence (derive_signal s))).
Proof.
  split; intros Hclose Hfast.
  - split; [ | intros Hrsi; now apply bearish_when_below_trend ].
    destruct (score_when_below_trend s Hclose Hfast) as [Hscore _].
    rewrite derive_signal_of_score.
    destruct (Qlt_bool (15 # 100) (fst (score_and_parts s))) eqn:E1; reflect_Q; [ lra | ].
    destruct (Qlt_bool (fst (score_and_parts s)) (- (15 # 100))); discriminate.
  - destruct (score_when_above_trend s Hclose Hfast) as [Hscore Hstrong].
    split.
    + rewrite derive_signal_of_score.
      destruct (Qlt_bool (15 # 100) (fst (score_and_parts s))); [ discriminate | ].
      destruct (Qlt_bool (fst (score_and_parts s)) (- (15 # 100))) eqn:E2; reflect_Q;
        [ lra | discriminate ].
    + intros Hrsi. specialize (Hstrong Hrsi). split.
      * rewrite derive_signal_of_score.
        destruct (Qlt_bool (15 # 100) (fst (score_and_parts s))) eqn:E1; reflect_Q;
          [ reflexivity | lra ].
      * apply confidence_of_strong_score.
        rewrite Qabs_pos by lra. lra.
Qed.

Lemma derive_signal_follows_trend_witness :
  signal (derive_signal snapshot_24h_up) = "Bullish" /\
  75 # 100 <= confidence (derive_signal snapshot_24h_up).
Proof.
  destruct (derive_signal_follows_trend snapshot_24h_up) as [_ H].
  destruct H as [_ H]; [ cbn; lra | cbn; lra | ].
  apply H. cbn; lra.
Defined.

(** X22. With fewer than 14 candles the indicators take their fallbacks
    (SMA20 = SMA60 = latest close, RSI = 50), and the guardrail computed
    from such a snapshot is always Bearish with confidence at least 0.75,
    whatever the prices are: fused with a Bullish primary signal it yields
    Neutral, and with a Neutral primary signal it yields Bearish. *)
Theorem short_history_guardrail_is_bearish (fsqrt : Q -> Q) (sym interval : string)
    (klines : list Candle) (minutes : Z) :
  _interval_to_minutes interval = Ok minutes ->
  (0 < minutes)%Z ->
  (0 < length klines < 14)%nat ->
  exists snap,
    build_snapshot fsqrt sym interval klines = Ok snap /\
    signal (derive_signal snap) = "Bearish" /\
    75 # 100 <= confidence (derive_signal snap) /\
    combine_signals (Some "Bullish") (Some (signal (derive_signal snap)))
                    (Some (confidence (derive_signal snap))) = "Neutral" /\
    combine_signals (Some "Neutral") (Some (signal (derive_signal snap)))
                    (Some (confidence (derive_signal snap))) = "Bearish".
Proof.
  intros Hm Hmin [Hpos Hshort].
  destruct (build_snapshot_components fsqrt sym interval klines minutes Hm Hmin Hpos)
    as (c24 & c4 & m1 & r & m20 & lc & m60 & atr & vol & Hr & H20 & _ & H60 & _ & Hsnap).
  rewrite calculate_rsi_short in Hr by (rewrite length_map; lia).
  rewrite iloc_last_rolling_short in H20 by (rewrite length_of_floats, length_map; lia).
  rewrite iloc_last_rolling_short in H60 by (rewrite length_of_floats, length_map; lia).
  injection Hr as <-. injection H20 as <-. injection H60 as <-.
  eexists. split; [ exact Hsnap | ].
  match goal with
  | |- context [ derive_signal ?sn ] =>
      destruct (bearish_when_below_trend sn) as [Hsig Hconf];
      [ cbn; lra | cbn; lra | cbn; lra | ];
      set (snap := sn) in *
  end.
  split; [ exact Hsig | ].
  split; [ exact Hconf | ].
  assert (H55 : Qle_bool (55 # 100) (confidence (derive_signal snap)) = true)
    by (apply Qle_bool_iff; lra).
  assert (H75 : Qle_bool (75 # 100) (confidence (derive_signal snap)) = true)
    by (apply Qle_bool_iff; lra).
  rewrite Hsig. unfold combine_signals. cbn. rewrite H55, H75. split; reflexivity.
Qed.

Lemma short_history_guardrail_is_bearish_witness :
  exists snap,
    build_snapshot (fun x => x) "BTCUSDT" "15m" two_candles = Ok snap /\
    signal (derive_signal snap) = "Bearish".
Proof.
  destruct (short_history_guardrail_is_bearish (fun x => x) "BTCUSDT" "15m" two_candles 15)
    as (snap & Hsnap & Hsig & _); [ reflexivity | lia | cbn; lia | ].
  now exists snap.
Defined.

(** ** RSI *)

Section RsiFacts.

Import Pandas.

Lemma Forall_window (P : option Q -> Prop) (w : nat) (s : series) (i : nat) :
  Forall P s -> Forall P (window_at w s i).
Proof.
  intros H. unfold window_at.
  rewrite <- (firstn_skipn (S i) s) in H. apply Forall_app in H as [H _].
  rewrite <- (firstn_skipn (S i - w) (firstn (S i) s)) in H.
  now apply Forall_app in H as [_ H].
Qed.

Lemma Forall_valid_nonneg (l : series) :
  Forall nonneg_opt l -> Forall (fun x => 0 <= x) (valid l).
Proof.
  induction 1 as [ | [x | ] l Hx _ IH ]; cbn; [ constructor | | exact IH ].
  constructor; assumption.
Qed.

Lemma Forall_valid_zero (l : series) :
  Forall zero_opt l -> Forall (fun x => x == 0) (valid l).
Proof.
  induction 1 as [ | [x | ] l Hx _ IH ]; cbn; [ constructor | | exact IH ].
  constructor; assumption.
Qed.

Lemma qsum_nonneg (l : list Q) : Forall (fun x => 0 <= x) l -> 0 <= qsum l.
Proof.
  induction 1 as [ | x l Hx _ IH ]; cbn; [ lra | ]. unfold qsum in IH. lra.
Qed.

Lemma qsum_zero (l : list Q) : Forall (fun x => x == 0) l -> qsum l == 0.
Proof.
  induction 1 as [ | x l Hx _ IH ]; cbn; [ reflexivity | ]. unfold qsum in IH. lra.
Qed.

Lemma count_nonneg (n : nat) : 0 <= / inject_Z (Z.of_nat n).
Proof.
  apply Qinv_le_0_compat. change 0 with (inject_Z 0). rewrite <- Zle_Qle. lia.
Qed.

Lemma mean_nonneg (l : list Q) :
  Forall (fun x => 0 <= x) l -> nonneg_opt (mean l).
Proof.
  intros H. unfold mean. destruct l as [ | x r ]; [ exact I | ].
  cbn [nonneg_opt]. unfold Qdiv.
  apply Qmult_le_0_compat; [ now apply qsum_nonneg | apply count_nonneg ].
Qed.

Lemma mean_zero (l : list Q) :
  Forall (fun x => x == 0) l -> zero_opt (mean l).
Proof.
  intros H. unfold mean. destruct l as [ | x r ]; [ exact I | ].
  cbn [zero_opt]. unfold Qdiv. rewrite (qsum_zero _ H). apply Qmult_0_l.
Qed.

Lemma nth_rolling_mean_nonneg (w : nat) (s : series) (i : nat) :
  Forall nonneg_opt s -> nonneg_opt (nth i (rolling w mean s) None).
Proof.
  intros H.
  destruct (Nat.lt_ge_cases i (length s)) as [Hi | Hi].
  - rewrite nth_rolling by exact Hi. cbv zeta.
    destruct (length (valid (window_at w s i)) <? w)%nat; [ exact I | ].
    apply mean_nonneg, Forall_valid_nonneg, Forall_window, H.
  - rewrite nth_overflow by (rewrite length_rolling; exact Hi). exact I.
Qed.

Lemma nth_rolling_mean_zero (w : nat) (s : series) (i : nat) :
  Forall zero_opt s -> zero_opt (nth i (rolling w mean s) None).
Proof.
  intros H.
  destruct (Nat.lt_ge_cases i (length s)) as [Hi | Hi].
  - rewrite nth_rolling by exact Hi. cbv zeta.
    destruct (length (valid (window_at w s i)) <? w)%nat; [ exact I | ].
    apply mean_zero, Forall_valid_zero, Forall_window, H.
  - rewrite nth_overflow by (rewrite length_rolling; exact Hi). exact I.
Qed.

Lemma gain_nonneg (d : series) : Forall nonneg_opt (clip_lower 0 d).
Proof.
  unfold clip_lower. apply Forall_map, Forall_forall.
  intros [x | ] _; cbn; [ apply Q.le_max_l | exact I ].
Qed.

Lemma loss_nonneg (d : series) : Forall nonneg_opt (neg (clip_upper 0 d)).
Proof.
  unfold neg, clip_upper. rewrite map_map. apply Forall_map, Forall_forall.
  intros [x | ] _; cbn; [ | exact I ].
  pose proof (Q.le_min_l 0 x). lra.
Qed.

Lemma loss_zero (d : series) : Forall nonneg_opt d -> Forall zero_opt (neg (clip_upper 0 d)).
Proof.
  intros H. unfold neg, clip_upper. rewrite map_map. apply Forall_map.
  induction H as [ | o l Hx _ IH ]; constructor; [ | exact IH ].
  destruct o as [x | ]; cbn in *; [ | exact I ].
  rewrite Q.min_l by exact Hx. reflexivity.
Qed.

(** The value of the indicator in terms of the two last rolling averages. *)
Lemma calculate_rsi_last (series : list Q) (period : nat) :
  (0 < length series)%nat ->
  let delta := diff (of_floats series) in
  let n := length series in
  _calculate_rsi series period =
  Ok (_safe_value
        (lift2 Qminus (Some 100)
           (fdiv (Some 100)
              (lift2 Qplus (Some 1)
                 (fdiv (nth (n - 1) (rolling period mean (clip_lower 0 delta)) None)
                       (nth (n - 1)
                          (replace_zero_na
                             (rolling period mean (neg (clip_upper 0 delta)))) None)))))
        50).
Proof.
  intros Hpos. cbv zeta. unfold _calculate_rsi.
  match goal with
  | |- context [ iloc_last (map ?g ?l) ] =>
      rewrite (iloc_last_nth (map g l) None)
        by (rewrite length_map, length_rsi_ratio; exact Hpos);
      rewrite length_map, length_rsi_ratio;
      rewrite (nth_map_default g l _ None None)
        by (rewrite length_rsi_ratio; lia)
  end.
  rewrite nth_zip_with; [ reflexivity | | ].
  - unfold clip_lower. rewrite length_rolling, length_map, length_diff, length_of_floats. lia.
  - unfold replace_zero_na, neg, clip_upper.
    rewrite length_map, length_rolling, !length_map, length_diff, length_of_floats. lia.
Qed.

Lemma nth_replace_zero_na (s : series) (i : nat) :
  nth i (replace_zero_na s) None =
  match nth i s None with
  | Some x => if Qeq_bool x 0 then None else Some x
  | None => None
  end.
Proof.
  unfold replace_zero_na.
  destruct (Nat.lt_ge_cases i (length s)) as [Hi | Hi].
  - now rewrite (nth_map_default _ s i None None) by exact Hi.
  - rewrite !nth_overflow by (rewrite ?length_map; exact Hi). reflexivity.
Qed.

Lemma rsi_formula_range (a l : Q) :
  0 <= a -> 0 < l ->
  Qeq_bool (1 + a / l) 0 = false /\
  0 <= 100 - 100 / (1 + a / l) /\ 100 - 100 / (1 + a / l) <= 100.
Proof.
  intros Ha Hl.
  assert (Hrs : 0 <= a / l).
  { unfold Qdiv. apply Qmult_le_0_compat; [ exact Ha | ].
    apply Qinv_le_0_compat. lra. }
  set (rs := a / l) in *.
  assert (Hden : 0 < 1 + rs) by lra.
  split.
  - destruct (Qeq_bool (1 + rs) 0) eqn:E; [ | reflexivity ].
    apply Qeq_bool_iff in E. lra.
  - assert (H1 : 100 / (1 + rs) <= 100) by (apply Qle_shift_div_r; [ exact Hden | lra ]).
    assert (H2 : 0 <= 100 / (1 + rs)) by (apply Qle_shift_div_l; [ exact Hden | lra ]).
    split; lra.
Qed.

End RsiFacts.

(** X23. Whenever [_calculate_rsi] returns, its value lies between 0 and
    100, for every series and period; the fallback 50 is within that range
    too. *)
Theorem calculate_rsi_range (series : list Q) (period : nat) (value : Q) :
  _calculate_rsi series period = Ok value -> 0 <= value /\ value <= 100.
Proof.
  destruct series as [ | x0 rest ]; [ discriminate | ].
  set (series := x0 :: rest).
  rewrite (calculate_rsi_last series period) by (cbn; lia). cbv zeta.
  rewrite nth_replace_zero_na.
  pose proof (nth_rolling_mean_nonneg period _ (length series - 1)
                (gain_nonneg (Pandas.diff (Pandas.of_floats series)))) as Hg.
  pose proof (nth_rolling_mean_nonneg period _ (length series - 1)
                (loss_nonneg (Pandas.diff (Pandas.of_floats series)))) as Hl.
  destruct (nth (length series - 1)
              (Pandas.rolling period Pandas.mean
                 (Pandas.clip_lower 0 (Pandas.diff (Pandas.of_floats series)))) None)
    as [a | ];
    [ | cbn; intros H; injection H as <-; split; lra ].
  destruct (nth (length series - 1)
              (Pandas.rolling period Pandas.mean
                 (Pandas.neg (Pandas.clip_upper 0 (Pandas.diff (Pandas.of_floats series)))))
              None)
    as [l | ];
    [ | cbn; intros H; injection H as <-; split; lra ].
  cbn [nonneg_opt] in Hg, Hl.
  destruct (Qeq_bool l 0) eqn:E0;
    [ cbn; intros H; injection H as <-; split; lra | ].
  assert (Hl0 : ~ l == 0) by (apply Qeq_bool_neq; exact E0).
  assert (Hlpos : 0 < l) by lra.
  destruct (rsi_formula_range a l Hg Hlpos) as (Hden & Hlo & Hhi).
  unfold Pandas.fdiv at 2. rewrite E0. cbn [Pandas.lift2].
  unfold Pandas.fdiv. rewrite Hden. cbn [Pandas.lift2 _safe_value].
  intros H; injection H as <-. split; assumption.
Qed.

Lemma calculate_rsi_range_witness :
  exists value,
    _calculate_rsi [1; 2; 1; 3; 2; 4; 3; 5; 4; 6; 5; 7; 6; 8; 7; 9] 14 = Ok value /\
    0 <= value /\ value <= 100.
Proof.
  eexists. split; [ reflexivity | ].
  apply (calculate_rsi_range [1; 2; 1; 3; 2; 4; 3; 5; 4; 6; 5; 7; 6; 8; 7; 9] 14).
  reflexivity.
Defined.

Lemma diff_tail (x : Q) (l : list Q) :
  Pandas.zip_with (Pandas.lift2 Qminus) (map Some l) (removelast (Some x :: map Some l)) =
  diffs_from x l.
Proof.
  revert x. induction l as [ | y r IH ]; intros x; [ reflexivity | ].
  change (removelast (Some x :: map Some (y :: r)))
    with (Some x :: removelast (Some y :: map Some r)).
  cbn [map Pandas.zip_with Pandas.lift2 diffs_from]. now rewrite IH.
Qed.

Lemma diff_of_floats_cons (x : Q) (l : list Q) :
  Pandas.diff (Pandas.of_floats (x :: l)) = None :: diffs_from x l.
Proof.
  unfold Pandas.diff, Pandas.shift1, Pandas.of_floats.
  cbn [map Pandas.zip_with Pandas.lift2]. now rewrite diff_tail.
Qed.

Lemma diffs_from_nonneg (x : Q) (l : list Q) :
  non_decreasing_from x l -> Forall nonneg_opt (diffs_from x l).
Proof.
  revert x. induction l as [ | y r IH ]; intros x H; [ constructor | ].
  destruct H as [Hxy Hr]. constructor; [ cbn; lra | now apply IH ].
Qed.

(** X24. On a non-empty series whose prices never fall the average loss is
    zero, the ratio of gains to losses is undefined, and [_calculate_rsi]
    returns the neutral fallback 50 for every period, however strong the
    rise. *)
Theorem calculate_rsi_never_falling (series : list Q) (period : nat) :
  (0 < length series)%nat ->
  non_decreasing series ->
  _calculate_rsi series period = Ok 50.
Proof.
  intros Hpos Hrise.
  rewrite (calculate_rsi_last series period Hpos). cbv zeta.
  rewrite nth_replace_zero_na.
  assert (Hd : Forall nonneg_opt (Pandas.diff (Pandas.of_floats series))).
  { destruct series as [ | x l ]; [ cbn in Hpos; lia | ].
    rewrite diff_of_floats_cons. constructor; [ exact I | ].
    now apply diffs_from_nonneg. }
  pose proof (nth_rolling_mean_zero period _ (length series - 1) (loss_zero _ Hd)) as Hz.
  destruct (nth (length series - 1)
              (Pandas.rolling period Pandas.mean
                 (Pandas.neg (Pandas.clip_upper 0 (Pandas.diff (Pandas.of_floats series)))))
              None)
    as [l | ].
  - cbn [zero_opt] in Hz. apply Qeq_bool_iff in Hz. rewrite Hz.
    destruct (nth _ _ None); reflexivity.
  - destruct (nth _ _ None); reflexivity.
Qed.

Lemma calculate_rsi_never_falling_witness :
  _calculate_rsi [1; 2; 3; 4; 5; 6; 7; 8; 9; 10; 11; 12; 13; 14; 15; 16] 14 = Ok 50.
Proof.
  apply calculate_rsi_never_falling; [ cbn; lia | ].
  cbn. repeat split; lra.
Defined.

(** ** Remaining edge behaviour *)

(** X25. The outcomes of the sizing are disjoint and complete: a spec of
    another type raises TypeError, an invalid string or amount raises
    ValueError, and a valid spec yields [capital_to_use / price] unless the
    price is zero, in which case the division raises ZeroDivisionError. *)
Theorem calculate_position_size_zero_price (capital price : Q) (spec : size_spec) :
  (calculate_position_size capital price spec = Raise ZeroDivisionError <->
   price == 0 /\ spec <> SpecOther /\ ~ invalid_spec capital spec) /\
  ((exists qty, calculate_position_size capital price spec = Ok qty) <->
   ~ price == 0 /\ spec <> SpecOther /\ ~ invalid_spec capital spec).
Proof.
  pose proof (position_size_value_error capital price spec) as Hv.
  pose proof (position_size_type_error capital price spec) as Ht.
  assert (Hcases :
    calculate_position_size capital price spec = Raise ValueError \/
    calculate_position_size capital price spec = Raise TypeError \/
    (Qeq_bool price 0 = true /\
     calculate_position_size capital price spec = Raise ZeroDivisionError) \/
    (Qeq_bool price 0 = false /\
     exists qty, calculate_position_size capital price spec = Ok qty)).
  { unfold calculate_position_size.
    destruct spec as [s | amount | ]; [ | | right; left; reflexivity ].
    - destruct (PyStr.endswith_char s "%"); [ | left; reflexivity ].
      destruct (PyNum.py_float (PyStr.rstrip_by is_percent s)) as [pct | ];
        [ | left; reflexivity ].
      destruct (negb (Qlt_bool 0 pct && Qle_bool pct 100)); [ left; reflexivity | ].
      cbn [rbind]. destruct (Qeq_bool price 0);
        [ right; right; left; now split
        | right; right; right; split; [ reflexivity | now eexists ] ].
    - destruct (Qle_bool amount 0); [ left; reflexivity | ].
      destruct (Qlt_bool capital amount); [ left; reflexivity | ].
      cbn [rbind]. destruct (Qeq_bool price 0);
        [ right; right; left; now split
        | right; right; right; split; [ reflexivity | now eexists ] ]. }
  split; split.
  - intros H. rewrite H in Hv, Ht, Hcases.
    destruct Hcases as [H' | [H' | [[Hp _] | [_ [q H']]]]]; try discriminate.
    apply Qeq_bool_iff in Hp.
    split; [ exact Hp | split ].
    + intros Hs. apply Ht in Hs. discriminate.
    + intros Hi. apply Hv in Hi. discriminate.
  - intros (Hp & Hs & Hi).
    destruct Hcases as [H' | [H' | [[_ H'] | [Hp' _]]]].
    + apply Hv in H'. contradiction.
    + apply Ht in H'. contradiction.
    + exact H'.
    + apply Qeq_bool_neq in Hp'. contradiction.
  - intros [qty H]. rewrite H in Hv, Ht, Hcases.
    destruct Hcases as [H' | [H' | [[_ H'] | [Hp _]]]]; try discriminate.
    apply Qeq_bool_neq in Hp.
    split; [ exact Hp | split ].
    + intros Hs. apply Ht in Hs. discriminate.
    + intros Hi. apply Hv in Hi. discriminate.
  - intros (Hp & Hs & Hi).
    destruct Hcases as [H' | [H' | [[Hp' _] | [_ H']]]].
    + apply Hv in H'. contradiction.
    + apply Ht in H'. contradiction.
    + apply Qeq_bool_iff in Hp'. contradiction.
    + exact H'.
Qed.

Lemma calculate_position_size_zero_price_witness :
  calculate_position_size 1000 0 (SpecNum 150) = Raise ZeroDivisionError.
Proof.
  apply (proj1 (calculate_position_size_zero_price 1000 0 (SpecNum 150))).
  split; [ reflexivity | split; [ discriminate | ] ].
  cbn. intros [H | H]; revert H; unfold Qle, Qlt; cbn; lia.
Defined.

Lemma upper_cleaned_lower (s : string) :
  PyStr.upper (PyStr.strip (PyStr.lower s)) = PyStr.upper (PyStr.strip s).
Proof.
  unfold PyStr.lower. rewrite (strip_smap _ lower_char_space).
  unfold PyStr.upper. apply smap_smap, upper_lower_char.
Qed.

Lemma upper_cleaned_upper (s : string) :
  PyStr.upper (PyStr.strip (PyStr.upper s)) = PyStr.upper (PyStr.strip s).
Proof.
  unfold PyStr.upper at 2. rewrite (strip_smap _ upper_char_space).
  unfold PyStr.upper. apply smap_smap, upper_upper_char.
Qed.

(** X26. On ASCII text the side label is read without regard to letter
    case: a label of ASCII characters, its lower-cased form and its
    upper-cased form normalise to the same side. *)
Theorem normalize_position_side_case_insensitive (s : string) :
  is_ascii_string s = true ->
  normalize_position_side (Some (PyStr.lower s)) = normalize_position_side (Some s) /\
  normalize_position_side (Some (PyStr.upper s)) = normalize_position_side (Some s).
Proof.
  intros _.
  unfold normalize_position_side.
  rewrite upper_cleaned_lower, upper_cleaned_upper.
  split; destruct s; reflexivity.
Qed.

Lemma normalize_position_side_case_insensitive_witness :
  normalize_position_side (Some (PyStr.lower " Short ")) = Some "sell" /\
  normalize_position_side (Some (PyStr.upper " Short ")) = Some "sell".
Proof.
  destruct (normalize_position_side_case_insensitive " Short ") as [Hl Hu];
    [ reflexivity | ].
  rewrite Hl, Hu. split; reflexivity.
Defined.

(** ** Percent change in double precision *)




(** ** Bar counts of the snapshot *)

(** C7 (as amended). For an interval of a positive number of minutes and a
    non-empty frame, [build_snapshot] measures the 24h change over
    [1440 / minutes] bars, the 4h change over [240 / minutes] bars and the
    1h momentum over [max 1 (60 / minutes)] bars, and takes the 24h volume
    and volatility over [1440 / minutes] bars, each quotient truncated to an
    integer and not rounded. *)
Theorem snapshot_bar_counts_truncate (fsqrt : Q -> Q) (sym interval : string)
    (klines : list Candle) (minutes : Z) :
  _interval_to_minutes interval = Ok minutes ->
  (0 < minutes)%Z ->
  (0 < length klines)%nat ->
  exists snap,
    build_snapshot fsqrt sym interval klines = Ok snap /\
    _period_pct_change (map c_close klines) (1440 / minutes) = Ok (change_24h snap) /\
    _period_pct_change (map c_close klines) (240 / minutes) = Ok (change_4h snap) /\
    _period_pct_change (map c_close klines) (Z.max 1 (60 / minutes))
      = Ok (momentum_1h snap) /\
    volume_24h snap =
      Pandas.qsum (Pandas.iloc_from (map c_volume klines) (- (1440 / minutes))) /\
    exists vol,
      Pandas.iloc_last
        (Pandas.rolling (Z.to_nat (1440 / minutes)) (std fsqrt)
           (Pandas.pct_change (Pandas.of_floats (map c_close klines)))) = Ok vol /\
      volatility_24h snap = _safe_value vol 0.
Proof.
  intros Hm Hmin Hpos.
  assert (Hc : length (map c_close klines) = length klines) by apply length_map.
  assert (Hh : length (map c_high klines) = length (map c_close klines))
    by now rewrite !length_map.
  assert (Hl : length (map c_low klines) = length (map c_close klines))
    by now rewrite !length_map.
  assert (Hb : (0 <= 1440 / minutes)%Z) by (apply Z.div_pos; lia).
  unfold build_snapshot.
  rewrite (period_bars_floor (24 * 60) interval minutes Hm Hmin) by lia.
  rewrite (period_bars_floor (4 * 60) interval minutes Hm Hmin) by lia.
  rewrite (period_bars_floor 60 interval minutes Hm Hmin) by lia.
  change (24 * 60)%Z with 1440%Z. change (4 * 60)%Z with 240%Z.
  cbn [rbind].
  destruct (period_pct_change_total (map c_close klines) (1440 / minutes)) as [c24 H24].
  destruct (period_pct_change_total (map c_close klines) (240 / minutes)) as [c4 H4].
  destruct (period_pct_change_total (map c_close klines) (Z.max 1 (60 / minutes)))
    as [m1 H1].
  rewrite H24, H4, H1. cbn [rbind].
  destruct (calculate_rsi_total (map c_close klines) 14) as [r Hr]; [ lia | ].
  destruct (iloc_last_total
              (Pandas.rolling 20 Pandas.mean (Pandas.of_floats (map c_close klines))))
    as [m20 H20];
    [ rewrite length_rolling, length_of_floats; lia | ].
  destruct (iloc_last_total (map c_close klines)) as [lc Hlc]; [ lia | ].
  destruct (iloc_last_total
              (Pandas.rolling 60 Pandas.mean (Pandas.of_floats (map c_close klines))))
    as [m60 H60];
    [ rewrite length_rolling, length_of_floats; lia | ].
  destruct (calculate_atr_total (map c_high klines) (map c_low klines)
              (map c_close klines) 14 Hh Hl) as [atr Hatr]; [ lia | ].
  assert (Hnn : (1440 / minutes <? 0)%Z = false) by (apply Z.ltb_ge; exact Hb).
  destruct (iloc_last_total
              (Pandas.rolling (Z.to_nat (1440 / minutes)) (std fsqrt)
                 (Pandas.pct_change (Pandas.of_floats (map c_close klines)))))
    as [vol Hvol];
    [ rewrite length_rolling, length_pct_change, length_of_floats; lia | ].
  rewrite Hr. cbn [rbind]. rewrite H20. cbn [rbind]. rewrite Hlc. cbn [rbind].
  rewrite H60. cbn [rbind]. rewrite Hatr. cbn [rbind].
  unfold rolling_std_last. rewrite Hnn, Hvol. cbn [rbind].
  eexists. split; [ reflexivity | ].
  cbn [change_24h change_4h momentum_1h volume_24h volatility_24h].
  repeat (split; [ reflexivity | ]).
  exists vol. split; reflexivity.
Qed.

Lemma snapshot_bar_counts_truncate_witness :
  exists snap,
    build_snapshot (fun x => x) "BTCUSDT" "6h" two_candles = Ok snap /\
    _period_pct_change [11; 12] 4 = Ok (change_24h snap) /\
    _period_pct_change [11; 12] 0 = Ok (change_4h snap) /\
    _period_pct_change [11; 12] 1 = Ok (momentum_1h snap).
Proof.
  destruct (snapshot_bar_counts_truncate (fun x => x) "BTCUSDT" "6h" two_candles 360)
    as (snap & Hsnap & H24 & H4 & H1 & _); [ reflexivity | lia | cbn; lia | ].
  exists snap. repeat split; assumption.
Defined.

(** ** The decision table on the recorded calls *)




